(** * FDC2214 capacitive-sensor driver (Sanworks LickStick firmware)

    A shallow embedding of [Firmware/LickStick/FDC2214.cpp] and
    [FDC2214.h], and the properties of its register protocol.

    Conventions.
    - A [byte] / [uint8_t] is a [Z] in [0, 2^8), a [uint16_t] a [Z] in
      [0, 2^16), a [uint32_t] a [Z] in [0, 2^32).  Every conversion the
      C++ performs implicitly (passing an [int] expression to a [byte]
      parameter, storing an [int] into a [byte] lvalue) is written out
      with [u8], [u16] or [u32].
    - The anonymous union [typeBuffer] is four bytes of storage; its
      [uint16] and [uint32] members are views of those bytes on a
      little-endian target, which is what every board the firmware is
      built for (AVR, ARM Cortex-M) is.
    - [Wire] (the I2C transport) and the board functions ([pinMode],
      [digitalWrite], [delay]) are collaborators outside the driver: the
      transport is a type class, the board calls are logged. *)

From Stdlib Require Import ZArith List Lia Bool.
From stdpp Require Import base option list gmap.
Import ListNotations.

Local Open Scope Z_scope.

(** ** Fixed-width integers *)

Definition u8 (z : Z) : Z := z mod 2 ^ 8.
Definition u16 (z : Z) : Z := z mod 2 ^ 16.
Definition u32 (z : Z) : Z := z mod 2 ^ 32.

(** Arduino's [bitClear(value, bit)] is [((value) &= ~(1UL << (bit)))];
    [unsigned long] is 32 bits wide.  The result is what is stored back
    into the (wider or narrower) lvalue by the caller. *)
Definition bitClear (value bit : Z) : Z :=
  Z.land value (u32 (Z.lnot (u32 (Z.shiftl 1 bit)))).

(** The binary constants of Arduino's [binary.h] that the driver uses. *)
Definition B00000000 : Z := 0x00.
Definition B00000001 : Z := 0x01.
Definition B00000010 : Z := 0x02.
Definition B00001010 : Z := 0x0A.
Definition B00001101 : Z := 0x0D.
Definition B00010000 : Z := 0x10.
Definition B00011110 : Z := 0x1E.
Definition B00100000 : Z := 0x20.
Definition B00111110 : Z := 0x3E.
Definition B01000000 : Z := 0x40.
Definition B10000000 : Z := 0x80.
Definition B11111000 : Z := 0xF8.

(** ** FDC2214.h: address and register map *)

Definition ADDRESS : Z := 42.

Definition REG_RCOUNT_CH0 : Z := 8.
Definition REG_RCOUNT_CH1 : Z := 9.
Definition REG_SETTLECOUNT_CH0 : Z := 16.
Definition REG_SETTLECOUNT_CH1 : Z := 17.
Definition REG_CLKDIVIDERS_CH0 : Z := 20.
Definition REG_CLKDIVIDERS_CH1 : Z := 21.
Definition REG_STATUS : Z := 24.
Definition REG_ERRCONFIG : Z := 25.
Definition REG_CONFIG : Z := 26.
Definition REG_MUXCONFIG : Z := 27.
Definition REG_RESET : Z := 28.
Definition REG_DRIVECURRENT_CH0 : Z := 30.
Definition REG_DRIVECURRENT_CH1 : Z := 31.
Definition REG_MFGID : Z := 126.

(** ** The [typeBuffer] union *)

(** [union { byte uint8[4]; uint16_t uint16[2]; uint32_t uint32[1]; }]:
    four bytes, [tb0] at the lowest address. *)
Record TypeBuffer : Type := mkTypeBuffer {
  tb0 : Z;
  tb1 : Z;
  tb2 : Z;
  tb3 : Z
}.

Module Buf.

(** [typeBuffer.uint8[i]], for the indices the driver uses (0..3). *)
Definition get_uint8 (i : nat) (b : TypeBuffer) : Z :=
  match i with
  | 0%nat => tb0 b
  | 1%nat => tb1 b
  | 2%nat => tb2 b
  | _ => tb3 b
  end.

(** [typeBuffer.uint8[i] = v]. *)
Definition set_uint8 (i : nat) (v : Z) (b : TypeBuffer) : TypeBuffer :=
  match i with
  | 0%nat => mkTypeBuffer (u8 v) (tb1 b) (tb2 b) (tb3 b)
  | 1%nat => mkTypeBuffer (tb0 b) (u8 v) (tb2 b) (tb3 b)
  | 2%nat => mkTypeBuffer (tb0 b) (tb1 b) (u8 v) (tb3 b)
  | _ => mkTypeBuffer (tb0 b) (tb1 b) (tb2 b) (u8 v)
  end.

(** [typeBuffer.uint16[0]]: bytes 0 and 1, least significant first. *)
Definition get_uint16_0 (b : TypeBuffer) : Z := tb0 b + 2 ^ 8 * tb1 b.

(** [typeBuffer.uint16[0] = v]. *)
Definition set_uint16_0 (v : Z) (b : TypeBuffer) : TypeBuffer :=
  mkTypeBuffer (u8 (u16 v)) (u8 (Z.shiftr (u16 v) 8)) (tb2 b) (tb3 b).

(** [typeBuffer.uint32[0]]: all four bytes, least significant first. *)
Definition get_uint32_0 (b : TypeBuffer) : Z :=
  tb0 b + 2 ^ 8 * tb1 b + 2 ^ 16 * tb2 b + 2 ^ 24 * tb3 b.

End Buf.

(** ** The driver object *)

(** The data members of [class FDC2214]. *)
Record FDC2214 : Type := mkFDC2214 {
  typeBuffer : TypeBuffer;
  clockEnable : Z;
  intB : Z;
  shutDown : Z;
  activeChannel : Z;
  chConfigBit : Z;
  registerBuffer : Z;
  sensorValue : Z
}.

Definition with_typeBuffer (b : TypeBuffer) (d : FDC2214) : FDC2214 :=
  mkFDC2214 b (clockEnable d) (intB d) (shutDown d) (activeChannel d)
            (chConfigBit d) (registerBuffer d) (sensorValue d).

Definition with_activeChannel (c : Z) (d : FDC2214) : FDC2214 :=
  mkFDC2214 (typeBuffer d) (clockEnable d) (intB d) (shutDown d) c
            (chConfigBit d) (registerBuffer d) (sensorValue d).

Definition with_chConfigBit (c : Z) (d : FDC2214) : FDC2214 :=
  mkFDC2214 (typeBuffer d) (clockEnable d) (intB d) (shutDown d)
            (activeChannel d) c (registerBuffer d) (sensorValue d).

(** ** Collaborators: the I2C transport and the board *)

(** The part of Arduino's [TwoWire] the driver calls.  The driver ignores
    what [write], [endTransmission] and [requestFrom] return, so they
    only transform the transport; [read] returns an [int]. *)
Class Wire (T : Type) : Type := {
  Wire_begin : T -> T;
  Wire_setClock : Z -> T -> T;
  Wire_beginTransmission : Z -> T -> T;
  Wire_write : list Z -> T -> T;
  Wire_endTransmission : T -> T;
  Wire_requestFrom : Z -> Z -> T -> T;
  Wire_read : T -> Z * T
}.

Inductive PinModeKind : Type := INPUT | OUTPUT.
Inductive Level : Type := LOW | HIGH.

Inductive BoardEvent : Type :=
| EvPinMode (pin : Z) (m : PinModeKind)
| EvDigitalWrite (pin : Z) (l : Level)
| EvDelay (ms : Z).

(** The whole system: the driver object, the bus, and the log of the
    board calls made so far (oldest first). *)
Record Sys (T : Type) : Type := mkSys {
  obj : FDC2214;
  bus : T;
  board : list BoardEvent
}.
Arguments mkSys {T} _ _ _.
Arguments obj {T} _.
Arguments bus {T} _.
Arguments board {T} _.

(** ** A state monad for the member functions *)

Definition M (T A : Type) : Type := Sys T -> A * Sys T.

Definition ret {T A} (a : A) : M T A := fun s => (a, s).

Definition bind {T A B} (m : M T A) (k : A -> M T B) : M T B :=
  fun s => let (a, s') := m s in k a s'.

Declare Scope drv_scope.
Delimit Scope drv_scope with drv.
Notation "x <- m ;; k" := (bind m (fun x => k))
  (at level 100, m at next level, k at level 200, right associativity)
  : drv_scope.
Notation "m ;; k" := (bind m (fun _ => k))
  (at level 100, k at level 200, right associativity) : drv_scope.

Definition exec {T A} (m : M T A) (s : Sys T) : Sys T := snd (m s).
Definition eval {T A} (m : M T A) (s : Sys T) : A := fst (m s).

Section Driver.

Context {T : Type} `{Wire T}.

Local Open Scope drv_scope.

(** Primitive actions. *)
Definition get {A} (f : FDC2214 -> A) : M T A := fun s => (f (obj s), s).

Definition modify (f : FDC2214 -> FDC2214) : M T unit :=
  fun s => (tt, mkSys (f (obj s)) (bus s) (board s)).

Definition on_bus (f : T -> T) : M T unit :=
  fun s => (tt, mkSys (obj s) (f (bus s)) (board s)).

Definition bus_read : M T Z :=
  fun s => let (b, t) := Wire_read (bus s) in (b, mkSys (obj s) t (board s)).

Definition on_board (e : BoardEvent) : M T unit :=
  fun s => (tt, mkSys (obj s) (bus s) (board s ++ [e])).

Definition get_uint8 (i : nat) : M T Z :=
  get (fun d => Buf.get_uint8 i (typeBuffer d)).

Definition set_uint8 (i : nat) (v : Z) : M T unit :=
  modify (fun d => with_typeBuffer (Buf.set_uint8 i v (typeBuffer d)) d).

Definition pinMode (pin : Z) (m : PinModeKind) : M T unit :=
  on_board (EvPinMode pin m).
Definition digitalWrite (pin : Z) (l : Level) : M T unit :=
  on_board (EvDigitalWrite pin l).
Definition delay (ms : Z) : M T unit := on_board (EvDelay ms).

(** [FDC2214::FDC2214(byte clockEnable, byte intB, byte shutDown)].
    The parameters shadow the members of the same names, so the body
    only drives the pins.  The default member initialisers set
    [clockEnable], [activeChannel], [chConfigBit], [registerBuffer]
    and [sensorValue]; [typeBuffer], [intB] and [shutDown] keep
    whatever the storage [raw] held. *)
Definition FDC2214_ctor (raw : FDC2214) (clockEnable' intB' shutDown' : Z)
  : M T unit :=
  let clockEnable' := u8 clockEnable' in
  let intB' := u8 intB' in
  let shutDown' := u8 shutDown' in
  modify (fun _ => mkFDC2214 (typeBuffer raw) 0 (intB raw) (shutDown raw)
                             0 B00000000 0 0) ;;
  pinMode clockEnable' OUTPUT ;;
  digitalWrite clockEnable' HIGH ;;
  pinMode intB' INPUT ;;
  pinMode shutDown' OUTPUT ;;
  digitalWrite shutDown' HIGH ;;
  delay 1 ;;
  digitalWrite shutDown' LOW.

(** [void FDC2214::sendByte(byte aByte)] *)
Definition sendByte (aByte : Z) : M T unit :=
  let aByte := u8 aByte in
  on_bus (Wire_beginTransmission ADDRESS) ;;
  on_bus (Wire_write [aByte]) ;;
  on_bus Wire_endTransmission.

(** [void FDC2214::writeRegister16(byte regID, byte msb, byte lsb)] *)
Definition writeRegister16 (regID msb lsb : Z) : M T unit :=
  let regID := u8 regID in
  let msb := u8 msb in
  let lsb := u8 lsb in
  set_uint8 0 regID ;;
  set_uint8 1 msb ;;
  set_uint8 2 lsb ;;
  on_bus (Wire_beginTransmission ADDRESS) ;;
  buf <- get typeBuffer ;;
  on_bus (Wire_write [tb0 buf; tb1 buf; tb2 buf]) ;;
  on_bus Wire_endTransmission.

(** [void FDC2214::init()] *)
Definition init : M T unit :=
  on_bus Wire_begin ;;
  on_bus (Wire_setClock 400000) ;;
  delay 1 ;;
  writeRegister16 REG_RESET B10000000 B00000000 ;;
  writeRegister16 REG_RCOUNT_CH0 B00000001 B00000000 ;;
  writeRegister16 REG_RCOUNT_CH1 B00000001 B00000000 ;;
  writeRegister16 REG_SETTLECOUNT_CH0 B00000000 B00001010 ;;
  writeRegister16 REG_SETTLECOUNT_CH1 B00000000 B00001010 ;;
  writeRegister16 REG_CLKDIVIDERS_CH0 B00010000 B00000001 ;;
  writeRegister16 REG_CLKDIVIDERS_CH1 B00010000 B00000001 ;;
  writeRegister16 REG_ERRCONFIG B00000000 B00000001 ;;
  writeRegister16 REG_MUXCONFIG B00000010 B00001101 ;;
  writeRegister16 REG_DRIVECURRENT_CH0 B11111000 B00000000 ;;
  writeRegister16 REG_DRIVECURRENT_CH1 B11111000 B00000000 ;;
  writeRegister16 REG_CONFIG B00011110 B00000001.

(** [uint16_t FDC2214::readRegister16(byte regID)] *)
Definition readRegister16 (regID : Z) : M T Z :=
  let regID := u8 regID in
  sendByte regID ;;
  on_bus (Wire_requestFrom ADDRESS 2) ;;
  b <- bus_read ;;
  set_uint8 1 b ;;
  b <- bus_read ;;
  set_uint8 0 b ;;
  get (fun d => Buf.get_uint16_0 (typeBuffer d)).

(** [uint32_t FDC2214::readSensor()] *)
Definition readSensor : M T Z :=
  ch <- get activeChannel ;;
  let regAddress := u8 (ch * 2) in
  sendByte regAddress ;;
  on_bus (Wire_requestFrom ADDRESS 2) ;;
  b <- bus_read ;;
  set_uint8 3 b ;;
  b <- bus_read ;;
  set_uint8 2 b ;;
  sendByte (regAddress + 1) ;;
  on_bus (Wire_requestFrom ADDRESS 2) ;;
  b <- bus_read ;;
  set_uint8 1 b ;;
  b <- bus_read ;;
  set_uint8 0 b ;;
  x <- get_uint8 3 ;;
  set_uint8 3 (bitClear x 5) ;;
  x <- get_uint8 3 ;;
  set_uint8 3 (bitClear x 4) ;;
  get (fun d => Buf.get_uint32_0 (typeBuffer d)).

(** [void FDC2214::set_RCOUNT(uint16_t value)].  The two data writes
    each read [typeBuffer.uint8[1]] and [typeBuffer.uint8[0]] at the
    call, after the previous [writeRegister16] has used the same
    storage. *)
Definition set_RCOUNT (value : Z) : M T unit :=
  let value := u16 value in
  cb <- get chConfigBit ;;
  writeRegister16 REG_CONFIG (B00111110 + cb) B00000001 ;;
  modify (fun d => with_typeBuffer (Buf.set_uint16_0 value (typeBuffer d)) d) ;;
  hi <- get_uint8 1 ;;
  lo <- get_uint8 0 ;;
  writeRegister16 REG_RCOUNT_CH0 hi lo ;;
  hi <- get_uint8 1 ;;
  lo <- get_uint8 0 ;;
  writeRegister16 REG_RCOUNT_CH1 hi lo ;;
  cb <- get chConfigBit ;;
  writeRegister16 REG_CONFIG (B00011110 + cb) B00000001.

(** [void FDC2214::set_SETTLECOUNT(uint16_t value)] *)
Definition set_SETTLECOUNT (value : Z) : M T unit :=
  let value := u16 value in
  cb <- get chConfigBit ;;
  writeRegister16 REG_CONFIG (B00111110 + cb) B00000001 ;;
  modify (fun d => with_typeBuffer (Buf.set_uint16_0 value (typeBuffer d)) d) ;;
  hi <- get_uint8 1 ;;
  lo <- get_uint8 0 ;;
  writeRegister16 REG_SETTLECOUNT_CH0 hi lo ;;
  hi <- get_uint8 1 ;;
  lo <- get_uint8 0 ;;
  writeRegister16 REG_SETTLECOUNT_CH1 hi lo ;;
  cb <- get chConfigBit ;;
  writeRegister16 REG_CONFIG (B00011110 + cb) B00000001.

(** [void FDC2214::set_REF_DIVIDER(uint8_t value)] *)
Definition set_REF_DIVIDER (value : Z) : M T unit :=
  let value := u8 value in
  cb <- get chConfigBit ;;
  writeRegister16 REG_CONFIG (B00111110 + cb) B00000001 ;;
  writeRegister16 REG_CLKDIVIDERS_CH0 B00100000 value ;;
  writeRegister16 REG_CLKDIVIDERS_CH1 B00100000 value ;;
  cb <- get chConfigBit ;;
  writeRegister16 REG_CONFIG (B00011110 + cb) B00000001.

(** [void FDC2214::set_DRIVE_CURRENT(uint8_t value)] *)
Definition set_DRIVE_CURRENT (value : Z) : M T unit :=
  let value := u8 value in
  cb <- get chConfigBit ;;
  writeRegister16 REG_CONFIG (B00111110 + cb) B00000001 ;;
  writeRegister16 REG_DRIVECURRENT_CH0 (Z.shiftl value 3) B00000000 ;;
  writeRegister16 REG_DRIVECURRENT_CH1 (Z.shiftl value 3) B00000000 ;;
  cb <- get chConfigBit ;;
  writeRegister16 REG_CONFIG (B00011110 + cb) B00000001.

(** [void FDC2214::set_ACTIVE_CHANNEL(uint8_t newChannel)] *)
Definition set_ACTIVE_CHANNEL (newChannel : Z) : M T unit :=
  let newChannel := u8 newChannel in
  modify (with_activeChannel newChannel) ;;
  modify (with_chConfigBit (u8 (newChannel * B01000000))) ;;
  cb <- get chConfigBit ;;
  writeRegister16 REG_CONFIG (B00011110 + cb) B00000001.

End Driver.

(** ** Transport doubles *)

(** *** A recording transport

    [Recorder T] wraps any transport [T] and keeps a tape of every call
    the driver makes on the bus, oldest first; the calls themselves are
    passed on to [T] unchanged. *)

Inductive BusEvent : Type :=
| EvBegin
| EvSetClock (hz : Z)
| EvBeginTransmission (addr : Z)
| EvWrite (bytes : list Z)
| EvEndTransmission
| EvRequestFrom (addr n : Z)
| EvRead (b : Z).

Record Recorder (T : Type) : Type := mkRecorder {
  inner : T;
  tape : list BusEvent
}.
Arguments mkRecorder {T} _ _.
Arguments inner {T} _.
Arguments tape {T} _.

Definition record {T} (f : T -> T) (e : BusEvent) (r : Recorder T)
  : Recorder T :=
  mkRecorder (f (inner r)) (tape r ++ [e]).

#[export] Instance Recorder_Wire {T} `{Wire T} : Wire (Recorder T) := {|
  Wire_begin := record Wire_begin EvBegin;
  Wire_setClock hz := record (Wire_setClock hz) (EvSetClock hz);
  Wire_beginTransmission a :=
    record (Wire_beginTransmission a) (EvBeginTransmission a);
  Wire_write bs := record (Wire_write bs) (EvWrite bs);
  Wire_endTransmission := record Wire_endTransmission EvEndTransmission;
  Wire_requestFrom a n := record (Wire_requestFrom a n) (EvRequestFrom a n);
  Wire_read r :=
    let (b, t) := Wire_read (inner r) in
    (b, mkRecorder t (tape r ++ [EvRead b]))
|}.

(** A bus transaction is what lies between a [beginTransmission] and the
    next [endTransmission]: the address and the bytes queued by the
    [write] calls in between.  [transactions cur evs] lists the
    transactions of [evs] in order, [cur] being the one still open. *)
Fixpoint transactions (cur : option (Z * list Z)) (evs : list BusEvent)
  : list (Z * list Z) :=
  match evs with
  | [] => []
  | EvBeginTransmission a :: rest => transactions (Some (a, [])) rest
  | EvWrite bs :: rest =>
      transactions (match cur with
                    | Some (a, q) => Some (a, q ++ bs)
                    | None => None
                    end) rest
  | EvEndTransmission :: rest =>
      match cur with
      | Some t => t :: transactions None rest
      | None => transactions None rest
      end
  | _ :: rest => transactions cur rest
  end.

(** A register write is a transaction to the sensor that carries three
    bytes: register id, most-significant byte, least-significant byte. *)
Record RegWrite : Type := mkRegWrite {
  rw_reg : Z;
  rw_msb : Z;
  rw_lsb : Z
}.

Definition as_reg_write (t : Z * list Z) : option RegWrite :=
  match t with
  | (a, [r; m; l]) => if Z.eqb a ADDRESS then Some (mkRegWrite r m l) else None
  | _ => None
  end.

Definition reg_writes (evs : list BusEvent) : list RegWrite :=
  omap as_reg_write (transactions None evs).

(** *** A scripted transport

    The bytes the device will deliver are pre-loaded in [incoming].
    [requestFrom(address, n)] receives the next [n] of them into the
    receive buffer (replacing what was there), and [read()] takes bytes
    from the receive buffer, or returns -1 when it is empty, as
    [TwoWire::read] does. *)
Record Scripted : Type := mkScripted {
  incoming : list Z;
  rxbuf : list Z
}.

#[export] Instance Scripted_Wire : Wire Scripted := {|
  Wire_begin t := t;
  Wire_setClock _ t := t;
  Wire_beginTransmission _ t := t;
  Wire_write _ t := t;
  Wire_endTransmission t := t;
  Wire_requestFrom _ n t :=
    mkScripted (drop (Z.to_nat n) (incoming t))
               (take (Z.to_nat n) (incoming t));
  Wire_read t :=
    match rxbuf t with
    | b :: rest => (b, mkScripted (incoming t) rest)
    | [] => (-1, t)
    end
|}.

(** *** A register file

    The sensor as a bank of 16-bit registers behind a register pointer.
    A transaction to [ADDRESS] sets the pointer from its first byte and,
    when two data bytes follow, stores them in that register.
    [requestFrom(ADDRESS, n)] replays the first [n] bytes of the register
    under the pointer, most-significant byte first; a register never
    written reads as zero. *)
Record RegFile : Type := mkRegFile {
  rf_regs : gmap Z (Z * Z);
  rf_pointer : Z;
  rf_tx : option (Z * list Z);
  rf_rx : list Z
}.

Definition rf_commit (t : RegFile) : RegFile :=
  match rf_tx t with
  | Some (a, r :: m :: l :: _) =>
      if Z.eqb a ADDRESS
      then mkRegFile (<[r := (m, l)]> (rf_regs t)) r None (rf_rx t)
      else mkRegFile (rf_regs t) (rf_pointer t) None (rf_rx t)
  | Some (a, r :: _) =>
      if Z.eqb a ADDRESS
      then mkRegFile (rf_regs t) r None (rf_rx t)
      else mkRegFile (rf_regs t) (rf_pointer t) None (rf_rx t)
  | _ => mkRegFile (rf_regs t) (rf_pointer t) None (rf_rx t)
  end.

Definition rf_fetch (a n : Z) (t : RegFile) : RegFile :=
  if Z.eqb a ADDRESS
  then let '(m, l) := default (0, 0) (rf_regs t !! rf_pointer t) in
       mkRegFile (rf_regs t) (rf_pointer t) (rf_tx t) (take (Z.to_nat n) [m; l])
  else mkRegFile (rf_regs t) (rf_pointer t) (rf_tx t) [].

#[export] Instance RegFile_Wire : Wire RegFile := {|
  Wire_begin t := t;
  Wire_setClock _ t := t;
  Wire_beginTransmission a t :=
    mkRegFile (rf_regs t) (rf_pointer t) (Some (a, [])) (rf_rx t);
  Wire_write bs t :=
    mkRegFile (rf_regs t) (rf_pointer t)
              (match rf_tx t with
               | Some (a, q) => Some (a, q ++ bs)
               | None => None
               end) (rf_rx t);
  Wire_endTransmission := rf_commit;
  Wire_requestFrom := rf_fetch;
  Wire_read t :=
    match rf_rx t with
    | b :: rest => (b, mkRegFile (rf_regs t) (rf_pointer t) (rf_tx t) rest)
    | [] => (-1, t)
    end
|}.

(** ** The public operations of the driver, as data *)

Inductive Op : Type :=
| OpInit
| OpReadSensor
| OpReadRegister16 (regID : Z)
| OpWriteRegister16 (regID msb lsb : Z)
| OpSendByte (aByte : Z)
| OpSetRCOUNT (value : Z)
| OpSetSETTLECOUNT (value : Z)
| OpSetREFDIVIDER (value : Z)
| OpSetDRIVECURRENT (value : Z)
| OpSetACTIVECHANNEL (newChannel : Z)
| OpTypeBuffer (f : TypeBuffer -> TypeBuffer).

Definition is_set_ACTIVE_CHANNEL (o : Op) : bool :=
  match o with
  | OpSetACTIVECHANNEL _ => true
  | _ => false
  end.

Section Ops.

Context {T : Type} `{Wire T}.

Local Open Scope drv_scope.

(** One call from the application; what a call returns is dropped.
    [OpTypeBuffer] is the application writing the public member
    [typeBuffer]. *)
Definition run_op (o : Op) : M T unit :=
  match o with
  | OpInit => init
  | OpReadSensor => _ <- readSensor ;; ret tt
  | OpReadRegister16 r => _ <- readRegister16 r ;; ret tt
  | OpWriteRegister16 r m l => writeRegister16 r m l
  | OpSendByte b => sendByte b
  | OpSetRCOUNT v => set_RCOUNT v
  | OpSetSETTLECOUNT v => set_SETTLECOUNT v
  | OpSetREFDIVIDER v => set_REF_DIVIDER v
  | OpSetDRIVECURRENT v => set_DRIVE_CURRENT v
  | OpSetACTIVECHANNEL c => set_ACTIVE_CHANNEL c
  | OpTypeBuffer f => modify (fun d => with_typeBuffer (f (typeBuffer d)) d)
  end.

Fixpoint run_ops (os : list Op) : M T unit :=
  match os with
  | [] => ret tt
  | o :: rest => run_op o ;; run_ops rest
  end.

End Ops.

(** The relation between the two channel fields. *)
Definition channel_inv (d : FDC2214) : Prop :=
  chConfigBit d = (activeChannel d * 0x40) mod 256.

(** Byte [i] of a value, byte 0 being the least significant. *)
Definition byte_of (x : Z) (i : Z) : Z := u8 (Z.shiftr x (8 * i)).

(** A zeroed object and idle transports, for concrete runs. *)
Definition raw0 : FDC2214 :=
  mkFDC2214 (mkTypeBuffer 0 0 0 0) 0 0 0 0 0 0 0.

Definition boot {T} (t : T) : Sys T := mkSys raw0 t [].

Definition script (bytes : list Z) : Scripted := mkScripted bytes [].

Definition regfile0 : RegFile := mkRegFile ∅ 0 None [].

(** A recorder over a transport with nothing pre-loaded, and over the
    transport of the read scenario. *)
Definition idle : Sys (Recorder Scripted) := boot (mkRecorder (script []) []).

Definition scenario_bytes : list Z := [0x12; 0x34; 0x56; 0x78].

(** Channel 1 selected, with a reading whose status flags are raised. *)
Definition channel1_loaded : Sys (Recorder Scripted) :=
  exec (set_ACTIVE_CHANNEL 1)
       (boot (mkRecorder (script [0x32; 0x34; 0x56; 0x78]) [])).

(** Construct with pins (2,3,4), initialise, read the sensor. *)
Definition scenario {T} `{Wire T} : M T Z :=
  (FDC2214_ctor raw0 2 3 4 ;; init ;; readSensor)%drv.

(** [x] with bits [i] and [j] forced to 0. *)
Definition clear_bits (x i j : Z) : Z :=
  Z.land x (Z.lnot (Z.lor (Z.shiftl 1 i) (Z.shiftl 1 j))).

(** What a call added to the tape, and the register writes in it. *)
Definition tape_since {T} (s s' : Sys (Recorder T)) : list BusEvent :=
  drop (length (tape (bus s))) (tape (bus s')).

Definition writes_of {T A} (m : M (Recorder T) A) (s : Sys (Recorder T))
  : list RegWrite :=
  reg_writes (tape_since s (exec m s)).

(** The bus calls of one [writeRegister16]. *)
Definition write_events (r m l : Z) : list BusEvent :=
  [EvBeginTransmission ADDRESS; EvWrite [r; m; l]; EvEndTransmission].

(** The bus calls of one [sendByte] followed by a two-byte read. *)
Definition read_events (r b1 b2 : Z) : list BusEvent :=
  [EvBeginTransmission ADDRESS; EvWrite [r]; EvEndTransmission;
   EvRequestFrom ADDRESS 2; EvRead b1; EvRead b2].

(** The four tunable-parameter setters and the data registers of each. *)
Inductive Setter : Type := RCOUNT | SETTLECOUNT | REF_DIVIDER | DRIVE_CURRENT.

Definition run_setter {T} `{Wire T} (k : Setter) (value : Z) : M T unit :=
  match k with
  | RCOUNT => set_RCOUNT value
  | SETTLECOUNT => set_SETTLECOUNT value
  | REF_DIVIDER => set_REF_DIVIDER value
  | DRIVE_CURRENT => set_DRIVE_CURRENT value
  end.

Definition setter_CH0 (k : Setter) : Z :=
  match k with
  | RCOUNT => REG_RCOUNT_CH0
  | SETTLECOUNT => REG_SETTLECOUNT_CH0
  | REF_DIVIDER => REG_CLKDIVIDERS_CH0
  | DRIVE_CURRENT => REG_DRIVECURRENT_CH0
  end.

Definition setter_CH1 (k : Setter) : Z :=
  match k with
  | RCOUNT => REG_RCOUNT_CH1
  | SETTLECOUNT => REG_SETTLECOUNT_CH1
  | REF_DIVIDER => REG_CLKDIVIDERS_CH1
  | DRIVE_CURRENT => REG_DRIVECURRENT_CH1
  end.

(** A member function leaves the two channel fields as they were. *)
Definition keeps_channel {T A} (m : M T A) : Prop :=
  forall s : Sys T,
    activeChannel (obj (exec m s)) = activeChannel (obj s) /\
    chConfigBit (obj (exec m s)) = chConfigBit (obj s).

(** The sleep bit of the CONFIG register (bit 13) is bit 5 of the high
    byte written. *)
Definition sleep_bit (msb : Z) : bool := Z.testbit msb 5.

(** ** Vocabulary for the further properties *)

(** A member function leaves an observation [f] of the system as it
    was. *)
Definition preserves {T A X} (f : Sys T -> X) (m : M T A) : Prop :=
  forall s : Sys T, f (exec m s) = f s.

(** The level a pin was last driven to, if it was driven at all. *)
Definition pin_level (pin : Z) (log : list BoardEvent) : option Level :=
  fold_left (fun acc e =>
               match e with
               | EvDigitalWrite p l => if Z.eqb p pin then Some l else acc
               | _ => acc
               end) log None.

(** The same, read off a system's board log. *)
Definition level_of {T} (pin : Z) (s : Sys T) : option Level :=
  pin_level pin (board s).

(** The units of bus traffic the sensor protocol is made of: joining
    the bus, setting the clock, a register select (one byte sent to the
    sensor), a register write (three bytes sent to the sensor), and a
    two-byte read from the sensor.  Bytes sent are bytes. *)
Inductive bus_block : list BusEvent -> Prop :=
| block_begin : bus_block [EvBegin]
| block_setClock (hz : Z) : bus_block [EvSetClock hz]
| block_select (r : Z) :
    0 <= r < 256 ->
    bus_block [EvBeginTransmission ADDRESS; EvWrite [r]; EvEndTransmission]
| block_write (r m l : Z) :
    0 <= r < 256 -> 0 <= m < 256 -> 0 <= l < 256 ->
    bus_block (write_events r m l)
| block_read (b1 b2 : Z) :
    bus_block [EvRequestFrom ADDRESS 2; EvRead b1; EvRead b2].

Inductive bus_protocol : list BusEvent -> Prop :=
| protocol_nil : bus_protocol []
| protocol_block (blk rest : list BusEvent) :
    bus_block blk -> bus_protocol rest -> bus_protocol (blk ++ rest).

(** The 16-bit word the register file holds in register [r]. *)
Definition rf_word (t : RegFile) (r : Z) : Z :=
  let '(m, l) := default (0, 0) (rf_regs t !! r) in 2 ^ 8 * u8 m + u8 l.

(** The registers [init] programs, with the words it puts in them. *)
Definition init_defaults : list (Z * Z) :=
  [(REG_RESET, 0x8000); (REG_RCOUNT_CH0, 0x0100); (REG_RCOUNT_CH1, 0x0100);
   (REG_SETTLECOUNT_CH0, 0x000A); (REG_SETTLECOUNT_CH1, 0x000A);
   (REG_CLKDIVIDERS_CH0, 0x1001); (REG_CLKDIVIDERS_CH1, 0x1001);
   (REG_ERRCONFIG, 0x0001); (REG_MUXCONFIG, 0x020D);
   (REG_DRIVECURRENT_CH0, 0xF800); (REG_DRIVECURRENT_CH1, 0xF800);
   (REG_CONFIG, 0x1E01)].

(** * Properties *)

(** Running a member function symbolically unfolds the monad and the
    records, and leaves the integer arithmetic as it is written. *)
Ltac run :=
  lazy -[u8 u16 u32 bitClear Z.add Z.mul Z.modulo Z.div Z.pow
         Z.shiftl Z.shiftr Z.land Z.lnot Z.lor app].

(** Name the value and the transport that the next pending [read]
    produces, and go on running. *)
Ltac step_read b t :=
  match goal with
  | |- context [match ?x with pair _ _ => _ end] =>
      lazymatch x with
      | context [match _ with pair _ _ => _ end] => fail
      | _ => destruct x as [b t]
      end
  end; run.

(** ** Arithmetic of bytes *)

Lemma u8_range (z : Z) : 0 <= u8 z < 256.
Proof. unfold u8. change (2 ^ 8) with 256. apply Z.mod_pos_bound. lia. Qed.

Lemma u8_small (z : Z) : 0 <= z < 256 -> u8 z = z.
Proof.
  intros Hz. unfold u8. change (2 ^ 8) with 256. apply Z.mod_small, Hz.
Qed.

Lemma u8_idem (z : Z) : u8 (u8 z) = u8 z.
Proof. apply u8_small, u8_range. Qed.

Lemma u8_land (z : Z) : u8 z = Z.land z 255.
Proof.
  unfold u8. change 255 with (Z.ones 8). now rewrite Z.land_ones by lia.
Qed.

Lemma u16_small (z : Z) : 0 <= z < 65536 -> u16 z = z.
Proof.
  intros Hz. unfold u16. change (2 ^ 16) with 65536. apply Z.mod_small, Hz.
Qed.

Lemma u16_idem (z : Z) : u16 (u16 z) = u16 z.
Proof.
  apply u16_small. unfold u16. change (2 ^ 16) with 65536.
  apply Z.mod_pos_bound. lia.
Qed.

(** The channel-config bit is one of four multiples of [0x40]. *)
Lemma config_bit_cases (c : Z) :
  let b := (c * 0x40) mod 256 in b = 0 \/ b = 64 \/ b = 128 \/ b = 192.
Proof.
  cbv zeta. change 256 with (4 * 0x40).
  rewrite Z.mul_mod_distr_r by lia.
  pose proof (Z.mod_pos_bound c 4 ltac:(lia)). lia.
Qed.

(** ** The state monad *)

Lemma exec_bind {T A B} (m : M T A) (k : A -> M T B) (s : Sys T) :
  exec (bind m k) s = exec (k (eval m s)) (exec m s).
Proof. unfold exec, eval, bind. now destruct (m s). Qed.

Lemma eval_bind {T A B} (m : M T A) (k : A -> M T B) (s : Sys T) :
  eval (bind m k) s = eval (k (eval m s)) (exec m s).
Proof. unfold exec, eval, bind. now destruct (m s). Qed.

(** ** What one [writeRegister16] does *)

Section WriteRegister.

Context {T : Type} `{Wire T}.

Lemma writeRegister16_exec (r m l : Z) (s : Sys T) :
  exec (writeRegister16 r m l) s =
  mkSys (with_typeBuffer
           (mkTypeBuffer (u8 r) (u8 m) (u8 l) (tb3 (typeBuffer (obj s))))
           (obj s))
        (Wire_endTransmission
           (Wire_write [u8 r; u8 m; u8 l]
              (Wire_beginTransmission ADDRESS (bus s))))
        (board s).
Proof.
  destruct s as [d t brd]. unfold exec, writeRegister16, bind. run.
  now rewrite !u8_idem.
Qed.

Lemma sendByte_exec (b : Z) (s : Sys T) :
  exec (sendByte b) s =
  mkSys (obj s)
        (Wire_endTransmission
           (Wire_write [u8 b] (Wire_beginTransmission ADDRESS (bus s))))
        (board s).
Proof. destruct s as [d t brd]. reflexivity. Qed.

End WriteRegister.

(** ** Reading the recorder's tape *)

Section Tape.

Context {T : Type} `{Wire T}.

Lemma tape_since_app (s s' : Sys (Recorder T)) (evs : list BusEvent) :
  tape (bus s') = tape (bus s) ++ evs -> tape_since s s' = evs.
Proof.
  intros E. unfold tape_since. rewrite E. apply drop_app_length.
Qed.

Lemma writeRegister16_tape (r m l : Z) (s : Sys (Recorder T)) :
  tape (bus (exec (writeRegister16 r m l) s)) =
  tape (bus s) ++ write_events (u8 r) (u8 m) (u8 l).
Proof.
  rewrite writeRegister16_exec. run. now rewrite <- !app_assoc.
Qed.

Lemma init_tape (s : Sys (Recorder T)) :
  tape (bus (exec init s)) =
  tape (bus s) ++
  [EvBegin; EvSetClock 400000] ++
  write_events REG_RESET B10000000 B00000000 ++
  write_events REG_RCOUNT_CH0 B00000001 B00000000 ++
  write_events REG_RCOUNT_CH1 B00000001 B00000000 ++
  write_events REG_SETTLECOUNT_CH0 B00000000 B00001010 ++
  write_events REG_SETTLECOUNT_CH1 B00000000 B00001010 ++
  write_events REG_CLKDIVIDERS_CH0 B00010000 B00000001 ++
  write_events REG_CLKDIVIDERS_CH1 B00010000 B00000001 ++
  write_events REG_ERRCONFIG B00000000 B00000001 ++
  write_events REG_MUXCONFIG B00000010 B00001101 ++
  write_events REG_DRIVECURRENT_CH0 B11111000 B00000000 ++
  write_events REG_DRIVECURRENT_CH1 B11111000 B00000000 ++
  write_events REG_CONFIG B00011110 B00000001.
Proof.
  unfold init. rewrite !exec_bind, !writeRegister16_tape.
  run. now rewrite <- !app_assoc.
Qed.

End Tape.

Section Setters.

Context {T : Type} `{Wire T}.

(** The bus calls of a setter, with the data bytes it sends.  In
    [set_RCOUNT] and [set_SETTLECOUNT] the channel-1 write reads
    [typeBuffer.uint8[0]] after the channel-0 [writeRegister16] has put
    its register id there, so its low byte is that register id. *)
Lemma set_RCOUNT_tape (value : Z) (s : Sys (Recorder T)) :
  tape (bus (exec (set_RCOUNT value) s)) =
  tape (bus s) ++
  write_events REG_CONFIG (u8 (B00111110 + chConfigBit (obj s))) B00000001 ++
  write_events REG_RCOUNT_CH0 (u8 (Z.shiftr (u16 value) 8)) (u8 (u16 value)) ++
  write_events REG_RCOUNT_CH1 (u8 (Z.shiftr (u16 value) 8)) REG_RCOUNT_CH0 ++
  write_events REG_CONFIG (u8 (B00011110 + chConfigBit (obj s))) B00000001.
Proof.
  destruct s as [[tb ce ib sd ac cb rb sv] [t tp] brd]. run.
  rewrite !u8_idem, ?u16_idem, <- !app_assoc. reflexivity.
Qed.

Lemma set_SETTLECOUNT_tape (value : Z) (s : Sys (Recorder T)) :
  tape (bus (exec (set_SETTLECOUNT value) s)) =
  tape (bus s) ++
  write_events REG_CONFIG (u8 (B00111110 + chConfigBit (obj s))) B00000001 ++
  write_events REG_SETTLECOUNT_CH0
    (u8 (Z.shiftr (u16 value) 8)) (u8 (u16 value)) ++
  write_events REG_SETTLECOUNT_CH1
    (u8 (Z.shiftr (u16 value) 8)) REG_SETTLECOUNT_CH0 ++
  write_events REG_CONFIG (u8 (B00011110 + chConfigBit (obj s))) B00000001.
Proof.
  destruct s as [[tb ce ib sd ac cb rb sv] [t tp] brd]. run.
  rewrite !u8_idem, ?u16_idem, <- !app_assoc. reflexivity.
Qed.

Lemma set_REF_DIVIDER_tape (value : Z) (s : Sys (Recorder T)) :
  tape (bus (exec (set_REF_DIVIDER value) s)) =
  tape (bus s) ++
  write_events REG_CONFIG (u8 (B00111110 + chConfigBit (obj s))) B00000001 ++
  write_events REG_CLKDIVIDERS_CH0 B00100000 (u8 value) ++
  write_events REG_CLKDIVIDERS_CH1 B00100000 (u8 value) ++
  write_events REG_CONFIG (u8 (B00011110 + chConfigBit (obj s))) B00000001.
Proof.
  destruct s as [[tb ce ib sd ac cb rb sv] [t tp] brd]. run.
  rewrite !u8_idem, ?u16_idem, <- !app_assoc. reflexivity.
Qed.

Lemma set_DRIVE_CURRENT_tape (value : Z) (s : Sys (Recorder T)) :
  tape (bus (exec (set_DRIVE_CURRENT value) s)) =
  tape (bus s) ++
  write_events REG_CONFIG (u8 (B00111110 + chConfigBit (obj s))) B00000001 ++
  write_events REG_DRIVECURRENT_CH0 (u8 (Z.shiftl (u8 value) 3)) B00000000 ++
  write_events REG_DRIVECURRENT_CH1 (u8 (Z.shiftl (u8 value) 3)) B00000000 ++
  write_events REG_CONFIG (u8 (B00011110 + chConfigBit (obj s))) B00000001.
Proof.
  destruct s as [[tb ce ib sd ac cb rb sv] [t tp] brd]. run.
  rewrite !u8_idem, <- !app_assoc. reflexivity.
Qed.

End Setters.

(** A concrete run: the value [0x1234] reaches channel 0 whole, and
    channel 1 with the id of the channel-0 register as its low byte. *)
Example set_RCOUNT_0x1234 :
  writes_of (set_RCOUNT 0x1234) idle =
  [mkRegWrite REG_CONFIG 0x3E 0x01;
   mkRegWrite REG_RCOUNT_CH0 0x12 0x34;
   mkRegWrite REG_RCOUNT_CH1 0x12 REG_RCOUNT_CH0;
   mkRegWrite REG_CONFIG 0x1E 0x01].
Proof. reflexivity. Qed.

Example set_SETTLECOUNT_0x1234 :
  writes_of (set_SETTLECOUNT 0x1234) idle =
  [mkRegWrite REG_CONFIG 0x3E 0x01;
   mkRegWrite REG_SETTLECOUNT_CH0 0x12 0x34;
   mkRegWrite REG_SETTLECOUNT_CH1 0x12 REG_SETTLECOUNT_CH0;
   mkRegWrite REG_CONFIG 0x1E 0x01].
Proof. reflexivity. Qed.

Example set_DRIVE_CURRENT_31 :
  writes_of (set_DRIVE_CURRENT 31) idle =
  [mkRegWrite REG_CONFIG 0x3E 0x01;
   mkRegWrite REG_DRIVECURRENT_CH0 0xF8 0x00;
   mkRegWrite REG_DRIVECURRENT_CH1 0xF8 0x00;
   mkRegWrite REG_CONFIG 0x1E 0x01].
Proof. reflexivity. Qed.

(** ** Initialisation order *)

(** C1.  In every call of [init], from any driver state and over any
    transport, the register writes issued are the eleven writes of the
    reset, reference-count, settle-count, clock-divider, error-config,
    mux-config and drive-current registers, none of which addresses
    register 26, followed by the write of the main CONFIG register
    (register 26), and that write is the last bus traffic of the call. *)
Theorem init_writes_CONFIG_last {T} `{Wire T} (s : Sys (Recorder T)) :
  exists (pre : list RegWrite) (evs : list BusEvent),
    writes_of init s = pre ++ [mkRegWrite REG_CONFIG B00011110 B00000001] /\
    map rw_reg pre =
      [REG_RESET; REG_RCOUNT_CH0; REG_RCOUNT_CH1; REG_SETTLECOUNT_CH0;
       REG_SETTLECOUNT_CH1; REG_CLKDIVIDERS_CH0; REG_CLKDIVIDERS_CH1;
       REG_ERRCONFIG; REG_MUXCONFIG; REG_DRIVECURRENT_CH0;
       REG_DRIVECURRENT_CH1] /\
    Forall (fun w => rw_reg w <> REG_CONFIG) pre /\
    reg_writes evs = pre /\
    tape (bus (exec init s)) =
      tape (bus s) ++ evs ++ write_events REG_CONFIG B00011110 B00000001.
Proof.
  pose proof (init_tape s) as E.
  unfold writes_of. rewrite (tape_since_app _ _ _ E).
  set (evs :=
         [EvBegin; EvSetClock 400000] ++
         write_events REG_RESET B10000000 B00000000 ++
         write_events REG_RCOUNT_CH0 B00000001 B00000000 ++
         write_events REG_RCOUNT_CH1 B00000001 B00000000 ++
         write_events REG_SETTLECOUNT_CH0 B00000000 B00001010 ++
         write_events REG_SETTLECOUNT_CH1 B00000000 B00001010 ++
         write_events REG_CLKDIVIDERS_CH0 B00010000 B00000001 ++
         write_events REG_CLKDIVIDERS_CH1 B00010000 B00000001 ++
         write_events REG_ERRCONFIG B00000000 B00000001 ++
         write_events REG_MUXCONFIG B00000010 B00001101 ++
         write_events REG_DRIVECURRENT_CH0 B11111000 B00000000 ++
         write_events REG_DRIVECURRENT_CH1 B11111000 B00000000).
  exists (reg_writes evs), evs.
  split; [reflexivity |]. split; [reflexivity |].
  split; [| split; [reflexivity |]].
  - repeat constructor; discriminate.
  - rewrite E. unfold evs. rewrite <- !app_assoc. reflexivity.
Qed.

(** ** The sleep / program / wake bracket of the setters *)

Lemma sleep_wake_bytes (d : FDC2214) :
  channel_inv d ->
  u8 (B00111110 + chConfigBit d) = B00111110 + chConfigBit d /\
  u8 (B00011110 + chConfigBit d) = B00011110 + chConfigBit d /\
  sleep_bit (B00111110 + chConfigBit d) = true /\
  sleep_bit (B00011110 + chConfigBit d) = false.
Proof.
  unfold channel_inv. intros E.
  pose proof (config_bit_cases (activeChannel d)) as C. cbv zeta in C.
  rewrite <- E in C.
  destruct C as [C | [C | [C | C]]]; rewrite C; repeat split; reflexivity.
Qed.

Lemma setter_tape {T} `{Wire T} (k : Setter) (value : Z)
      (s : Sys (Recorder T)) :
  exists m0 l0 m1 l1 : Z,
    tape (bus (exec (run_setter k value) s)) =
    tape (bus s) ++
    write_events REG_CONFIG (u8 (B00111110 + chConfigBit (obj s))) B00000001 ++
    write_events (setter_CH0 k) m0 l0 ++
    write_events (setter_CH1 k) m1 l1 ++
    write_events REG_CONFIG (u8 (B00011110 + chConfigBit (obj s))) B00000001.
Proof.
  destruct k; cbn [run_setter setter_CH0 setter_CH1].
  - eexists _, _, _, _. apply set_RCOUNT_tape.
  - eexists _, _, _, _. apply set_SETTLECOUNT_tape.
  - eexists _, _, _, _. apply set_REF_DIVIDER_tape.
  - eexists _, _, _, _. apply set_DRIVE_CURRENT_tape.
Qed.

(** C2, as stated, fails: [set_RCOUNT] issues four register writes, not
    three. *)
Lemma setter_does_not_issue_three_writes :
  length (writes_of (set_RCOUNT 256) idle) <> 3%nat.
Proof. vm_compute. discriminate. Qed.

(** C2, amended.  From a state in which the channel-config bit is the one
    of the active channel, every setter, for every value, issues exactly
    four register writes and no other bus traffic: the main CONFIG
    register with the sleep bit set and the high byte offset by the
    channel-config bit, the channel-0 data register, the channel-1 data
    register, and the main CONFIG register with the sleep bit cleared and
    the same offset. *)
Theorem setter_sleep_program_wake {T} `{Wire T} (k : Setter) (value : Z)
        (s : Sys (Recorder T)) :
  channel_inv (obj s) ->
  exists d0 d1 : RegWrite,
    writes_of (run_setter k value) s =
      [mkRegWrite REG_CONFIG (B00111110 + chConfigBit (obj s)) B00000001;
       d0; d1;
       mkRegWrite REG_CONFIG (B00011110 + chConfigBit (obj s)) B00000001] /\
    rw_reg d0 = setter_CH0 k /\
    rw_reg d1 = setter_CH1 k /\
    sleep_bit (B00111110 + chConfigBit (obj s)) = true /\
    sleep_bit (B00011110 + chConfigBit (obj s)) = false /\
    length (writes_of (run_setter k value) s) = 4%nat /\
    tape (bus (exec (run_setter k value) s)) =
      tape (bus s) ++
      write_events REG_CONFIG (B00111110 + chConfigBit (obj s)) B00000001 ++
      write_events (rw_reg d0) (rw_msb d0) (rw_lsb d0) ++
      write_events (rw_reg d1) (rw_msb d1) (rw_lsb d1) ++
      write_events REG_CONFIG (B00011110 + chConfigBit (obj s)) B00000001.
Proof.
  intros Hinv.
  destruct (sleep_wake_bytes _ Hinv) as (Es & Ew & Bs & Bw).
  destruct (setter_tape k value s) as (m0 & l0 & m1 & l1 & E).
  rewrite Es, Ew in E.
  exists (mkRegWrite (setter_CH0 k) m0 l0), (mkRegWrite (setter_CH1 k) m1 l1).
  unfold writes_of. rewrite (tape_since_app _ _ _ E).
  repeat split; try assumption.
Qed.

Lemma setter_sleep_program_wake_witness :
  channel_inv (obj (exec (set_ACTIVE_CHANNEL 1) idle)) /\
  exists d0 d1 : RegWrite,
    writes_of (run_setter SETTLECOUNT 0x1234)
              (exec (set_ACTIVE_CHANNEL 1) idle) =
      [mkRegWrite REG_CONFIG 0x7E 1; d0; d1; mkRegWrite REG_CONFIG 0x5E 1] /\
    rw_reg d0 = REG_SETTLECOUNT_CH0 /\ rw_reg d1 = REG_SETTLECOUNT_CH1.
Proof.
  split; [reflexivity |].
  destruct (setter_sleep_program_wake SETTLECOUNT 0x1234
              (exec (set_ACTIVE_CHANNEL 1) idle))
    as (d0 & d1 & E & R0 & R1 & _).
  - reflexivity.
  - exists d0, d1. repeat split; assumption.
Defined.

(** ** The sensor read path *)

Lemma bitClear_5_4 (x : Z) :
  u8 (bitClear (u8 (bitClear (u8 x) 5)) 4) = Z.land (u8 x) 0xCF.
Proof.
  unfold bitClear.
  change (u32 (Z.lnot (u32 (Z.shiftl 1 5)))) with 0xFFFFFFDF.
  change (u32 (Z.lnot (u32 (Z.shiftl 1 4)))) with 0xFFFFFFEF.
  rewrite !u8_land, <- !Z.land_assoc. reflexivity.
Qed.

Lemma masked_byte_range (x : Z) : 0 <= Z.land (u8 x) 0xCF < 256.
Proof.
  replace (Z.land (u8 x) 0xCF) with (u8 (Z.land (u8 x) 0xCF)).
  - apply u8_range.
  - rewrite (u8_land (Z.land _ _)), <- Z.land_assoc. reflexivity.
Qed.

Lemma masked_byte_bits (x : Z) :
  Z.testbit (Z.land (u8 x) 0xCF) 5 = false /\
  Z.testbit (Z.land (u8 x) 0xCF) 4 = false.
Proof. rewrite !Z.land_spec. split; apply andb_false_r. Qed.

(** The top byte of a little-endian composition is its fourth byte. *)
Lemma byte_of_3 (b0 b1 b2 b3 : Z) :
  0 <= b0 < 256 -> 0 <= b1 < 256 -> 0 <= b2 < 256 -> 0 <= b3 < 256 ->
  byte_of (b0 + 2 ^ 8 * b1 + 2 ^ 16 * b2 + 2 ^ 24 * b3) 3 = b3.
Proof.
  intros H0 H1 H2 H3. unfold byte_of.
  change (8 * 3) with 24. rewrite Z.shiftr_div_pow2 by lia.
  replace (b0 + 2 ^ 8 * b1 + 2 ^ 16 * b2 + 2 ^ 24 * b3)
    with ((b0 + 2 ^ 8 * b1 + 2 ^ 16 * b2) + b3 * 2 ^ 24) by ring.
  rewrite Z.div_add by lia.
  rewrite Z.div_small by lia.
  apply u8_small. lia.
Qed.

Section ReadSensor.

Context {T : Type} `{Wire T}.

(** What [readSensor] returns and what it puts on the bus, in terms of
    the four values the transport's [read] returned. *)
Lemma readSensor_run (s : Sys (Recorder T)) :
  exists b3 b2 b1 b0 : Z,
    eval readSensor s =
      u8 b0 + 2 ^ 8 * u8 b1 + 2 ^ 16 * u8 b2 + 2 ^ 24 * Z.land (u8 b3) 0xCF /\
    tape (bus (exec readSensor s)) =
      tape (bus s) ++
      read_events (u8 (u8 (activeChannel (obj s) * 2))) b3 b2 ++
      read_events (u8 (u8 (activeChannel (obj s) * 2) + 1)) b1 b0.
Proof.
  destruct s as [[tb ce ib sd ac cb rb sv] [t tp] brd]. run.
  step_read b3 t3. step_read b2 t2. step_read b1 t1. step_read b0 t0.
  exists b3, b2, b1, b0. split.
  - now rewrite bitClear_5_4.
  - now rewrite <- !app_assoc.
Qed.

End ReadSensor.

Lemma testbit_byte_of (x i j : Z) :
  0 <= i -> 0 <= j < 8 ->
  Z.testbit (byte_of x i) j = Z.testbit x (j + 8 * i).
Proof.
  intros Hi Hj. unfold byte_of, u8.
  rewrite Z.mod_pow2_bits_low by lia.
  rewrite Z.shiftr_spec by lia. reflexivity.
Qed.

(** C3.  With the active channel [c] in {0,1}, [readSensor] selects
    register [2*c] and reads two bytes, then selects register [2*c+1]
    and reads two bytes; whatever the transport returned, the result has
    the first word (with bits 5 and 4 of its first byte cleared) as its
    most-significant 16 bits and the second word as its least-significant
    16 bits, so bits 5 and 4 of the most-significant byte of the result
    are never set. *)
Theorem readSensor_words_and_mask {T} `{Wire T} (c : Z)
        (s : Sys (Recorder T)) :
  c = 0 \/ c = 1 ->
  activeChannel (obj s) = c ->
  exists b3 b2 b1 b0 : Z,
    tape (bus (exec readSensor s)) =
      tape (bus s) ++
      read_events (2 * c) b3 b2 ++ read_events (2 * c + 1) b1 b0 /\
    eval readSensor s =
      2 ^ 16 * (2 ^ 8 * Z.land (u8 b3) 0xCF + u8 b2) +
      (2 ^ 8 * u8 b1 + u8 b0) /\
    Z.testbit (byte_of (eval readSensor s) 3) 5 = false /\
    Z.testbit (byte_of (eval readSensor s) 3) 4 = false /\
    Z.testbit (eval readSensor s) 29 = false /\
    Z.testbit (eval readSensor s) 28 = false.
Proof.
  intros Hc Hs.
  destruct (readSensor_run s) as (b3 & b2 & b1 & b0 & Ev & Tp).
  rewrite Hs in Tp.
  assert (Ea : u8 (u8 (c * 2)) = 2 * c /\ u8 (u8 (c * 2) + 1) = 2 * c + 1)
    by (destruct Hc; subst c; split; reflexivity).
  destruct Ea as [Ea0 Ea1]. rewrite Ea0, Ea1 in Tp.
  assert (Eb : byte_of (eval readSensor s) 3 = Z.land (u8 b3) 0xCF).
  { rewrite Ev. apply byte_of_3;
      auto using u8_range, masked_byte_range. }
  destruct (masked_byte_bits b3) as [M5 M4].
  exists b3, b2, b1, b0. split; [exact Tp |]. split; [rewrite Ev; ring |].
  split; [now rewrite Eb |]. split; [now rewrite Eb |].
  split.
  - change 29 with (5 + 8 * 3). rewrite <- testbit_byte_of by lia.
    now rewrite Eb.
  - change 28 with (4 + 8 * 3). rewrite <- testbit_byte_of by lia.
    now rewrite Eb.
Qed.

Lemma readSensor_words_and_mask_witness :
  (1 = 0 \/ 1 = 1) /\
  activeChannel (obj channel1_loaded) = 1 /\
  exists b3 b2 b1 b0 : Z,
    tape (bus (exec readSensor channel1_loaded)) =
      tape (bus channel1_loaded) ++
      read_events (2 * 1) b3 b2 ++ read_events (2 * 1 + 1) b1 b0 /\
    eval readSensor channel1_loaded =
      2 ^ 16 * (2 ^ 8 * Z.land (u8 b3) 0xCF + u8 b2) +
      (2 ^ 8 * u8 b1 + u8 b0) /\
    Z.testbit (byte_of (eval readSensor channel1_loaded) 3) 5 = false /\
    Z.testbit (byte_of (eval readSensor channel1_loaded) 3) 4 = false /\
    Z.testbit (eval readSensor channel1_loaded) 29 = false /\
    Z.testbit (eval readSensor channel1_loaded) 28 = false.
Proof.
  split; [right; reflexivity |]. split; [reflexivity |].
  apply (readSensor_words_and_mask 1 channel1_loaded);
    [right; reflexivity | reflexivity].
Defined.

(** A concrete run over the register file: channel 0 holds
    [0x32345678] with both status flags raised. *)
Example readSensor_regfile :
  eval readSensor
       (boot (mkRegFile (<[1 := (0x56, 0x78)]> (<[0 := (0x32, 0x34)]> ∅))
                        0 None [])) = 0x02345678.
Proof. vm_compute. reflexivity. Qed.

(** ** Channel selection *)

Section Channel.

Context {T : Type} `{Wire T}.

Lemma set_ACTIVE_CHANNEL_exec (c : Z) (s : Sys T) :
  exec (set_ACTIVE_CHANNEL c) s =
  mkSys (mkFDC2214
           (mkTypeBuffer REG_CONFIG
                         (u8 (B00011110 + u8 (u8 c * B01000000)))
                         B00000001 (tb3 (typeBuffer (obj s))))
           (clockEnable (obj s)) (intB (obj s)) (shutDown (obj s))
           (u8 c) (u8 (u8 c * B01000000))
           (registerBuffer (obj s)) (sensorValue (obj s)))
        (Wire_endTransmission
           (Wire_write [REG_CONFIG; u8 (B00011110 + u8 (u8 c * B01000000));
                        B00000001]
              (Wire_beginTransmission ADDRESS (bus s))))
        (board s).
Proof.
  destruct s as [d t brd]. unfold set_ACTIVE_CHANNEL, exec, bind. cbn.
  now rewrite !u8_idem.
Qed.

Lemma wake_byte (c : Z) :
  u8 (B00011110 + u8 (c * B01000000)) = B00011110 + (c * 0x40) mod 256.
Proof.
  unfold u8 at 2. change (2 ^ 8) with 256. change B01000000 with 0x40.
  pose proof (config_bit_cases c) as C. cbv zeta in C.
  destruct C as [C | [C | [C | C]]]; rewrite C; reflexivity.
Qed.

End Channel.

Lemma set_ACTIVE_CHANNEL_tape {T} `{Wire T} (c : Z) (s : Sys (Recorder T)) :
  tape (bus (exec (set_ACTIVE_CHANNEL c) s)) =
  tape (bus s) ++
  write_events REG_CONFIG (B00011110 + (u8 c * 0x40) mod 256) B00000001.
Proof.
  rewrite set_ACTIVE_CHANNEL_exec, wake_byte. cbn.
  now rewrite <- !app_assoc.
Qed.

(** C4.  For [c] in {0,1}, [set_ACTIVE_CHANNEL c] stores [c] as the
    active channel, sets the channel-config bit to [c * 0x40], and its
    only bus traffic is one write of the main CONFIG register, in the
    wake state (sleep bit clear), with high byte [0x1E + c * 0x40]. *)
Theorem set_ACTIVE_CHANNEL_valid {T} `{Wire T} (c : Z)
        (s : Sys (Recorder T)) :
  c = 0 \/ c = 1 ->
  chConfigBit (obj (exec (set_ACTIVE_CHANNEL c) s)) = c * 0x40 /\
  activeChannel (obj (exec (set_ACTIVE_CHANNEL c) s)) = c /\
  tape (bus (exec (set_ACTIVE_CHANNEL c) s)) =
    tape (bus s) ++ write_events REG_CONFIG (0x1E + c * 0x40) 0x01 /\
  writes_of (set_ACTIVE_CHANNEL c) s =
    [mkRegWrite REG_CONFIG (0x1E + c * 0x40) 0x01] /\
  sleep_bit (0x1E + c * 0x40) = false.
Proof.
  intros Hc. pose proof (set_ACTIVE_CHANNEL_tape c s) as Tp.
  unfold writes_of. rewrite (tape_since_app _ _ _ Tp).
  rewrite Tp, set_ACTIVE_CHANNEL_exec.
  destruct Hc; subst c; repeat split; reflexivity.
Qed.

Lemma set_ACTIVE_CHANNEL_valid_witness :
  (1 = 0 \/ 1 = 1) /\
  chConfigBit (obj (exec (set_ACTIVE_CHANNEL 1) idle)) = 1 * 0x40 /\
  activeChannel (obj (exec (set_ACTIVE_CHANNEL 1) idle)) = 1 /\
  writes_of (set_ACTIVE_CHANNEL 1) idle = [mkRegWrite REG_CONFIG 0x5E 0x01].
Proof.
  split; [right; reflexivity |].
  destruct (set_ACTIVE_CHANNEL_valid 1 idle) as (E1 & E2 & _ & E3 & _).
  - right; reflexivity.
  - repeat split; assumption.
Defined.

(** C8.  [set_ACTIVE_CHANNEL] does not validate its argument: for every
    byte [c] it stores [c], sets the channel-config bit to
    [(c * 0x40) mod 256] and issues the CONFIG write with that offset;
    for [c = 4] the bit is 0 and the write is the one of channel 0. *)
Theorem set_ACTIVE_CHANNEL_unvalidated {T} `{Wire T} (c : Z)
        (s : Sys (Recorder T)) :
  0 <= c < 256 ->
  activeChannel (obj (exec (set_ACTIVE_CHANNEL c) s)) = c /\
  chConfigBit (obj (exec (set_ACTIVE_CHANNEL c) s)) = (c * 0x40) mod 256 /\
  writes_of (set_ACTIVE_CHANNEL c) s =
    [mkRegWrite REG_CONFIG (0x1E + (c * 0x40) mod 256) 0x01] /\
  chConfigBit (obj (exec (set_ACTIVE_CHANNEL 4) s)) = 0 /\
  chConfigBit (obj (exec (set_ACTIVE_CHANNEL 4) s)) =
    chConfigBit (obj (exec (set_ACTIVE_CHANNEL 0) s)) /\
  writes_of (set_ACTIVE_CHANNEL 4) s = writes_of (set_ACTIVE_CHANNEL 0) s.
Proof.
  intros Hc. pose proof (set_ACTIVE_CHANNEL_tape c s) as Tp.
  rewrite (u8_small c Hc) in Tp.
  split; [| split; [| split]].
  - rewrite set_ACTIVE_CHANNEL_exec. cbn. now apply u8_small.
  - rewrite set_ACTIVE_CHANNEL_exec. cbn. now rewrite (u8_small c Hc).
  - unfold writes_of. now rewrite (tape_since_app _ _ _ Tp).
  - unfold writes_of.
    rewrite (tape_since_app _ _ _ (set_ACTIVE_CHANNEL_tape 4 s)).
    rewrite (tape_since_app _ _ _ (set_ACTIVE_CHANNEL_tape 0 s)).
    rewrite !set_ACTIVE_CHANNEL_exec. repeat split; reflexivity.
Qed.

Lemma set_ACTIVE_CHANNEL_unvalidated_witness :
  0 <= 7 < 256 /\
  activeChannel (obj (exec (set_ACTIVE_CHANNEL 7) idle)) = 7 /\
  chConfigBit (obj (exec (set_ACTIVE_CHANNEL 7) idle)) = (7 * 0x40) mod 256 /\
  writes_of (set_ACTIVE_CHANNEL 7) idle =
    [mkRegWrite REG_CONFIG (0x1E + (7 * 0x40) mod 256) 0x01].
Proof.
  split; [lia |].
  destruct (set_ACTIVE_CHANNEL_unvalidated 7 idle) as (E1 & E2 & E3 & _).
  - lia.
  - repeat split; assumption.
Defined.

(** ** Register access *)

(** What [readRegister16] returns, in terms of the two values the
    transport's [read] returned. *)
Lemma readRegister16_bytes {T} `{Wire T} (regID b1 b2 : Z) (t1 t2 : T)
      (s : Sys T) :
  Wire_read
    (Wire_requestFrom ADDRESS 2
       (Wire_endTransmission
          (Wire_write [u8 regID]
             (Wire_beginTransmission ADDRESS (bus s))))) = (b1, t1) ->
  Wire_read t1 = (b2, t2) ->
  eval (readRegister16 regID) s = u8 b2 + 2 ^ 8 * u8 b1.
Proof.
  intros R1 R2. destruct s as [d t brd].
  unfold readRegister16, sendByte, eval, bind, bus_read, on_bus, set_uint8,
    modify, get.
  cbn [obj bus board fst snd] in *.
  rewrite u8_idem, R1. cbn [obj bus board fst snd]. rewrite R2.
  reflexivity.
Qed.

(** The register file after a register write, after a register select,
    and after a two-byte request. *)
Lemma regfile_write (r m l : Z) (t : RegFile) :
  Wire_endTransmission
    (Wire_write [r; m; l] (Wire_beginTransmission ADDRESS t)) =
  mkRegFile (<[r := (m, l)]> (rf_regs t)) r None (rf_rx t).
Proof. reflexivity. Qed.

Lemma regfile_select (r : Z) (t : RegFile) :
  Wire_endTransmission (Wire_write [r] (Wire_beginTransmission ADDRESS t)) =
  mkRegFile (rf_regs t) r None (rf_rx t).
Proof. reflexivity. Qed.

Lemma regfile_request (m l : Z) (t : RegFile) :
  rf_regs t !! rf_pointer t = Some (m, l) ->
  Wire_requestFrom ADDRESS 2 t =
  mkRegFile (rf_regs t) (rf_pointer t) (rf_tx t) [m; l].
Proof.
  intros E. cbn [Wire_requestFrom RegFile_Wire]. unfold rf_fetch.
  rewrite E. reflexivity.
Qed.

(** C5.  [readRegister16] selects the register, requests two bytes, and
    returns [b1 * 256 + b2] where [b1] is the byte the transport
    delivered first and [b2] the one it delivered second. *)
Theorem readRegister16_first_byte_msb {T} `{Wire T} (regID b1 b2 : Z)
        (t1 t2 : T) (s : Sys T) :
  Wire_read
    (Wire_requestFrom ADDRESS 2
       (Wire_endTransmission
          (Wire_write [u8 regID]
             (Wire_beginTransmission ADDRESS (bus s))))) = (b1, t1) ->
  Wire_read t1 = (b2, t2) ->
  0 <= b1 < 256 ->
  0 <= b2 < 256 ->
  eval (readRegister16 regID) s = b1 * 256 + b2.
Proof.
  intros R1 R2 H1 H2.
  rewrite (readRegister16_bytes regID b1 b2 t1 t2 s R1 R2).
  rewrite (u8_small b1 H1), (u8_small b2 H2).
  change (2 ^ 8) with 256. lia.
Qed.

(** C6.  Over the register file, writing the high and low bytes of a
    16-bit value to a register and reading that register back returns
    the value. *)
Theorem write_read_roundtrip (regID v : Z) (s : Sys RegFile) :
  0 <= v < 65536 ->
  eval (readRegister16 regID)
       (exec (writeRegister16 regID (v / 256) (v mod 256)) s) = v.
Proof.
  intros Hv.
  assert (Hhi : 0 <= v / 256 < 256)
    by (split; [apply Z.div_pos | apply Z.div_lt_upper_bound]; lia).
  assert (Hlo : 0 <= v mod 256 < 256) by (apply Z.mod_pos_bound; lia).
  rewrite writeRegister16_exec, regfile_write.
  rewrite (readRegister16_bytes regID (v / 256) (v mod 256)
             (mkRegFile (<[u8 regID := (v / 256, v mod 256)]>
                           (rf_regs (bus s))) (u8 regID) None [v mod 256])
             (mkRegFile (<[u8 regID := (v / 256, v mod 256)]>
                           (rf_regs (bus s))) (u8 regID) None [])).
  - rewrite (u8_small _ Hhi), (u8_small _ Hlo).
    change (2 ^ 8) with 256. rewrite (Z.div_mod v 256) at 3 by lia. lia.
  - cbn [bus]. rewrite regfile_select. cbn [rf_regs rf_rx].
    rewrite (regfile_request (v / 256) (v mod 256)).
    + rewrite (u8_small _ Hhi), (u8_small _ Hlo). reflexivity.
    + cbn [rf_regs rf_pointer].
      rewrite (u8_small _ Hhi), (u8_small _ Hlo). apply lookup_insert_eq.
  - reflexivity.
Qed.

Lemma readRegister16_first_byte_msb_witness :
  Wire_read
    (Wire_requestFrom ADDRESS 2
       (Wire_endTransmission
          (Wire_write [u8 REG_MFGID]
             (Wire_beginTransmission ADDRESS (script [0x54; 0x49])))))
    = (0x54, mkScripted [] [0x49]) /\
  Wire_read (mkScripted [] [0x49]) = (0x49, mkScripted [] []) /\
  0 <= 0x54 < 256 /\
  0 <= 0x49 < 256 /\
  eval (readRegister16 REG_MFGID) (boot (script [0x54; 0x49]))
    = 0x54 * 256 + 0x49.
Proof.
  split; [reflexivity |]. split; [reflexivity |].
  split; [lia |]. split; [lia |].
  apply (readRegister16_first_byte_msb REG_MFGID 0x54 0x49
           (mkScripted [] [0x49]) (mkScripted [] [])
           (boot (script [0x54; 0x49])));
    [reflexivity | reflexivity | lia | lia].
Defined.

Lemma write_read_roundtrip_witness :
  0 <= 0xBEEF < 65536 /\
  eval (readRegister16 REG_RCOUNT_CH1)
       (exec (writeRegister16 REG_RCOUNT_CH1 (0xBEEF / 256) (0xBEEF mod 256))
             (boot regfile0)) = 0xBEEF.
Proof.
  split; [lia |].
  apply (write_read_roundtrip REG_RCOUNT_CH1 0xBEEF (boot regfile0)). lia.
Defined.

(** ** The read scenario *)

(** C7, as stated, fails: the scenario's reading is neither [0x12345678]
    nor that value with bits 20 and 21 cleared, and bits 20 and 21 of
    the reading are both set. *)
Lemma scenario_reading_is_not_0x12345678 :
  eval scenario (boot (script scenario_bytes)) <> 0x12345678 /\
  eval scenario (boot (script scenario_bytes)) <> clear_bits 0x12345678 20 21 /\
  Z.testbit (eval scenario (boot (script scenario_bytes))) 20 = true /\
  Z.testbit (eval scenario (boot (script scenario_bytes))) 21 = true.
Proof. vm_compute. repeat split; discriminate. Qed.

(** C7, amended.  After construction and [init], [readSensor] on a
    transport pre-loaded with [0x12; 0x34] and [0x56; 0x78] yields
    [0x02345678], which is [0x12345678] with bits 28 and 29 (bits 4 and 5
    of the most-significant byte) forced to 0; this holds whatever the
    object's storage held before construction and whichever pins are
    given. *)
Theorem scenario_reading (raw d : FDC2214) (pin1 pin2 pin3 : Z)
        (brd : list BoardEvent) :
  eval (FDC2214_ctor raw pin1 pin2 pin3 ;; init ;; readSensor)%drv
       (mkSys d (script scenario_bytes) brd) = 0x02345678 /\
  eval scenario (boot (script scenario_bytes)) = 0x02345678 /\
  0x02345678 = clear_bits 0x12345678 28 29.
Proof.
  split; [| split]; reflexivity.
Qed.

(** ** The channel fields: frame and invariant *)

Create HintDb frame.

Section Frame.

Context {T : Type} `{Wire T}.

Lemma keeps_bind {A B} (m : M T A) (k : A -> M T B) :
  keeps_channel m -> (forall a, keeps_channel (k a)) ->
  keeps_channel (bind m k).
Proof.
  intros Hm Hk s. rewrite exec_bind.
  destruct (Hk (eval m s) (exec m s)) as [Ea Ec].
  destruct (Hm s) as [Ea' Ec']. split; congruence.
Qed.

Lemma keeps_ret {A} (a : A) : keeps_channel (T := T) (ret a).
Proof. intros s. split; reflexivity. Qed.

Lemma keeps_get {A} (f : FDC2214 -> A) : keeps_channel (T := T) (get f).
Proof. intros s. split; reflexivity. Qed.

Lemma keeps_on_bus (f : T -> T) : keeps_channel (T := T) (on_bus f).
Proof. intros s. split; reflexivity. Qed.

Lemma keeps_on_board (e : BoardEvent) : keeps_channel (T := T) (on_board e).
Proof. intros s. split; reflexivity. Qed.

Lemma keeps_bus_read : keeps_channel (T := T) bus_read.
Proof.
  intros s. unfold exec, bus_read. destruct (Wire_read (bus s)).
  split; reflexivity.
Qed.

Lemma keeps_typeBuffer (f : FDC2214 -> TypeBuffer) :
  keeps_channel (T := T) (modify (fun d => with_typeBuffer (f d) d)).
Proof. intros s. split; reflexivity. Qed.

Lemma keeps_get_uint8 (i : nat) : keeps_channel (T := T) (get_uint8 i).
Proof. apply keeps_get. Qed.

Lemma keeps_set_uint8 (i : nat) (v : Z) :
  keeps_channel (T := T) (set_uint8 i v).
Proof. intros s. split; reflexivity. Qed.

Hint Resolve keeps_ret keeps_get keeps_on_bus keeps_on_board keeps_bus_read
  keeps_typeBuffer keeps_get_uint8 keeps_set_uint8 : frame.

Ltac frame :=
  repeat (apply keeps_bind; [| intros ?]); auto with frame.

Lemma keeps_sendByte (b : Z) : keeps_channel (T := T) (sendByte b).
Proof. unfold sendByte. frame. Qed.

Lemma keeps_writeRegister16 (r m l : Z) :
  keeps_channel (T := T) (writeRegister16 r m l).
Proof. unfold writeRegister16. frame. Qed.

Hint Resolve keeps_sendByte keeps_writeRegister16 : frame.

Lemma keeps_init : keeps_channel (T := T) init.
Proof. unfold init, delay. frame. Qed.

Lemma keeps_readRegister16 (r : Z) : keeps_channel (T := T) (readRegister16 r).
Proof. unfold readRegister16. frame. Qed.

Lemma keeps_readSensor : keeps_channel (T := T) readSensor.
Proof. unfold readSensor. frame. Qed.

Lemma keeps_set_RCOUNT (v : Z) : keeps_channel (T := T) (set_RCOUNT v).
Proof. unfold set_RCOUNT. frame. Qed.

Lemma keeps_set_SETTLECOUNT (v : Z) :
  keeps_channel (T := T) (set_SETTLECOUNT v).
Proof. unfold set_SETTLECOUNT. frame. Qed.

Lemma keeps_set_REF_DIVIDER (v : Z) :
  keeps_channel (T := T) (set_REF_DIVIDER v).
Proof. unfold set_REF_DIVIDER. frame. Qed.

Lemma keeps_set_DRIVE_CURRENT (v : Z) :
  keeps_channel (T := T) (set_DRIVE_CURRENT v).
Proof. unfold set_DRIVE_CURRENT. frame. Qed.

Lemma keeps_run_op (o : Op) :
  is_set_ACTIVE_CHANNEL o = false -> keeps_channel (T := T) (run_op o).
Proof.
  intros E. destruct o; try discriminate E; cbn [run_op].
  - apply keeps_init.
  - apply keeps_bind; [apply keeps_readSensor | intros; apply keeps_ret].
  - apply keeps_bind; [apply keeps_readRegister16 | intros; apply keeps_ret].
  - apply keeps_writeRegister16.
  - apply keeps_sendByte.
  - apply keeps_set_RCOUNT.
  - apply keeps_set_SETTLECOUNT.
  - apply keeps_set_REF_DIVIDER.
  - apply keeps_set_DRIVE_CURRENT.
  - apply (keeps_typeBuffer (fun d => f (typeBuffer d))).
Qed.

Lemma ctor_fields (raw : FDC2214) (p1 p2 p3 : Z) (s : Sys T) :
  activeChannel (obj (exec (FDC2214_ctor raw p1 p2 p3) s)) = 0 /\
  chConfigBit (obj (exec (FDC2214_ctor raw p1 p2 p3) s)) = 0.
Proof. destruct s. split; reflexivity. Qed.

Lemma set_ACTIVE_CHANNEL_fields (c : Z) (s : Sys T) :
  activeChannel (obj (exec (set_ACTIVE_CHANNEL c) s)) = u8 c /\
  chConfigBit (obj (exec (set_ACTIVE_CHANNEL c) s)) = (u8 c * 0x40) mod 256.
Proof. rewrite set_ACTIVE_CHANNEL_exec. split; reflexivity. Qed.

Lemma run_op_channel_inv (o : Op) (s : Sys T) :
  channel_inv (obj s) -> channel_inv (obj (exec (run_op o) s)).
Proof.
  unfold channel_inv. intros Hinv.
  destruct (is_set_ACTIVE_CHANNEL o) eqn:E.
  - destruct o; try discriminate. cbn [run_op].
    destruct (set_ACTIVE_CHANNEL_fields newChannel s) as [Ea Ec].
    now rewrite Ea, Ec.
  - destruct (keeps_run_op o E s) as [Ea Ec]. now rewrite Ea, Ec.
Qed.

Lemma run_ops_channel_inv (os : list Op) (s : Sys T) :
  channel_inv (obj s) -> channel_inv (obj (exec (run_ops os) s)).
Proof.
  revert s. induction os as [| o os IH]; intros s Hinv.
  - exact Hinv.
  - cbn [run_ops]. rewrite exec_bind. apply IH, run_op_channel_inv, Hinv.
Qed.

End Frame.

(** C9.  The relation [chConfigBit = (activeChannel * 0x40) mod 256]
    holds after construction, where both fields are 0; every public
    operation preserves it; [set_ACTIVE_CHANNEL] writes both fields
    together, in the relation; no other operation changes either field;
    so the relation holds after any sequence of operations on a
    constructed driver. *)
Theorem channel_inv_invariant {T} `{Wire T} :
  (forall (raw : FDC2214) (p1 p2 p3 : Z) (s : Sys T),
      activeChannel (obj (exec (FDC2214_ctor raw p1 p2 p3) s)) = 0 /\
      chConfigBit (obj (exec (FDC2214_ctor raw p1 p2 p3) s)) = 0 /\
      channel_inv (obj (exec (FDC2214_ctor raw p1 p2 p3) s))) /\
  (forall (o : Op) (s : Sys T),
      channel_inv (obj s) -> channel_inv (obj (exec (run_op o) s))) /\
  (forall (c : Z) (s : Sys T),
      activeChannel (obj (exec (set_ACTIVE_CHANNEL c) s)) = u8 c /\
      chConfigBit (obj (exec (set_ACTIVE_CHANNEL c) s)) =
        (u8 c * 0x40) mod 256) /\
  (forall (o : Op) (s : Sys T),
      is_set_ACTIVE_CHANNEL o = false ->
      activeChannel (obj (exec (run_op o) s)) = activeChannel (obj s) /\
      chConfigBit (obj (exec (run_op o) s)) = chConfigBit (obj s)) /\
  (forall (os : list Op) (raw : FDC2214) (p1 p2 p3 : Z) (s : Sys T),
      channel_inv
        (obj (exec (run_ops os) (exec (FDC2214_ctor raw p1 p2 p3) s)))).
Proof.
  assert (C : forall raw p1 p2 p3 (s : Sys T),
             channel_inv (obj (exec (FDC2214_ctor raw p1 p2 p3) s))).
  { intros. unfold channel_inv.
    destruct (ctor_fields raw p1 p2 p3 s) as [Ea Ec]. now rewrite Ea, Ec. }
  split; [| split; [| split; [| split]]].
  - intros. destruct (ctor_fields raw p1 p2 p3 s) as [Ea Ec]. auto.
  - apply run_op_channel_inv.
  - apply set_ACTIVE_CHANNEL_fields.
  - intros o s E. apply (keeps_run_op o E s).
  - intros. apply run_ops_channel_inv, C.
Qed.

Lemma channel_inv_invariant_witness :
  channel_inv (obj idle) /\
  channel_inv (obj (exec (run_op (OpSetACTIVECHANNEL 3)) idle)) /\
  is_set_ACTIVE_CHANNEL (OpSetRCOUNT 512) = false /\
  activeChannel (obj (exec (run_op (OpSetRCOUNT 512)) channel1_loaded)) =
    activeChannel (obj channel1_loaded) /\
  chConfigBit (obj (exec (run_op (OpSetRCOUNT 512)) channel1_loaded)) =
    chConfigBit (obj channel1_loaded).
Proof.
  destruct (@channel_inv_invariant (Recorder Scripted) _)
    as (_ & Hstep & _ & Hframe & _).
  split; [reflexivity |].
  split; [apply (Hstep (OpSetACTIVECHANNEL 3) idle); reflexivity |].
  split; [reflexivity |].
  apply (Hframe (OpSetRCOUNT 512) channel1_loaded). reflexivity.
Defined.

(** C10.  [init], [readSensor], [readRegister16], [writeRegister16],
    [sendByte], [set_RCOUNT], [set_SETTLECOUNT], [set_REF_DIVIDER] and
    [set_DRIVE_CURRENT] leave [activeChannel] and [chConfigBit] as they
    were, for every argument and from every state; a public operation
    either is [set_ACTIVE_CHANNEL] or leaves them as they were; and
    [set_ACTIVE_CHANNEL] does change both. *)
Theorem channel_fields_frame {T} `{Wire T} :
  keeps_channel init /\
  keeps_channel readSensor /\
  (forall regID : Z, keeps_channel (readRegister16 regID)) /\
  (forall regID msb lsb : Z, keeps_channel (writeRegister16 regID msb lsb)) /\
  (forall aByte : Z, keeps_channel (sendByte aByte)) /\
  (forall value : Z, keeps_channel (set_RCOUNT value)) /\
  (forall value : Z, keeps_channel (set_SETTLECOUNT value)) /\
  (forall value : Z, keeps_channel (set_REF_DIVIDER value)) /\
  (forall value : Z, keeps_channel (set_DRIVE_CURRENT value)) /\
  (forall o : Op,
      is_set_ACTIVE_CHANNEL o = true \/ keeps_channel (run_op o)) /\
  (forall t : T,
      activeChannel (obj (exec (set_ACTIVE_CHANNEL 1) (boot t))) <>
        activeChannel (obj (boot t)) /\
      chConfigBit (obj (exec (set_ACTIVE_CHANNEL 1) (boot t))) <>
        chConfigBit (obj (boot t))).
Proof.
  repeat match goal with |- _ /\ _ => split end.
  - apply keeps_init.
  - apply keeps_readSensor.
  - apply keeps_readRegister16.
  - apply keeps_writeRegister16.
  - apply keeps_sendByte.
  - apply keeps_set_RCOUNT.
  - apply keeps_set_SETTLECOUNT.
  - apply keeps_set_REF_DIVIDER.
  - apply keeps_set_DRIVE_CURRENT.
  - intros o. destruct (is_set_ACTIVE_CHANNEL o) eqn:E; [now left |].
    right. now apply keeps_run_op.
  - intros t. rewrite set_ACTIVE_CHANNEL_exec. split; discriminate.
Qed.

(** * Further properties *)

(** ** Stepping through a member function by rewriting *)

Section Steps.

Context {T : Type} `{Wire T}.

Lemma exec_get {A} (f : FDC2214 -> A) (s : Sys T) : exec (get f) s = s.
Proof. reflexivity. Qed.

Lemma eval_get {A} (f : FDC2214 -> A) (s : Sys T) :
  eval (get f) s = f (obj s).
Proof. reflexivity. Qed.

Lemma exec_modify (f : FDC2214 -> FDC2214) (s : Sys T) :
  exec (modify f) s = mkSys (f (obj s)) (bus s) (board s).
Proof. reflexivity. Qed.

Lemma preserves_bind {A B X} (f : Sys T -> X) (m : M T A)
      (k : A -> M T B) :
  preserves f m -> (forall a, preserves f (k a)) -> preserves f (bind m k).
Proof.
  intros Hm Hk s. rewrite exec_bind. now rewrite Hk, Hm.
Qed.

End Steps.

Ltac steps :=
  unfold get_uint8, set_uint8;
  rewrite ?exec_bind, ?exec_get, ?eval_get, ?exec_modify,
    ?writeRegister16_exec;
  cbn [obj bus board chConfigBit activeChannel typeBuffer with_typeBuffer
       tb0 tb1 tb2 tb3 Buf.get_uint8 Buf.set_uint8 Buf.set_uint16_0].

Create HintDb pres.

Ltac pres :=
  repeat first [ solve [auto with pres]
               | apply preserves_bind; [| intros ?] ].

(** ** The pins *)

Lemma pin_level_app (pin : Z) (log more : list BoardEvent) :
  Forall (fun e => match e with
                   | EvDigitalWrite p _ => p <> pin
                   | _ => True
                   end) more ->
  pin_level pin (log ++ more) = pin_level pin log.
Proof.
  unfold pin_level. rewrite fold_left_app. generalize (fold_left
    (fun acc e => match e with
                  | EvDigitalWrite p l => if Z.eqb p pin then Some l else acc
                  | _ => acc
                  end) log None).
  induction more as [| e more IH]; intros acc Hm; [reflexivity |].
  apply Forall_cons in Hm. destruct Hm as [He Hm]. cbn [fold_left].
  destruct e as [p m | p l | ms]; try (apply IH, Hm).
  destruct (Z.eqb_spec p pin) as [E | _]; [contradiction | apply IH, Hm].
Qed.

Section Pins.

Context {T : Type} `{Wire T}.

Variable pin : Z.

Let level : Sys T -> option Level := level_of pin.

Lemma level_get {A} (f : FDC2214 -> A) : preserves level (get f).
Proof. intros s. reflexivity. Qed.

Lemma level_modify (f : FDC2214 -> FDC2214) : preserves level (modify f).
Proof. intros s. reflexivity. Qed.

Lemma level_on_bus (f : T -> T) : preserves level (on_bus f).
Proof. intros s. reflexivity. Qed.

Lemma level_bus_read : preserves level bus_read.
Proof.
  intros s. unfold exec, bus_read. now destruct (Wire_read (bus s)).
Qed.

Lemma level_ret {A} (a : A) : preserves level (ret a).
Proof. intros s. reflexivity. Qed.

Lemma level_delay (ms : Z) : preserves level (delay ms).
Proof.
  intros s. unfold delay, on_board, exec. cbn [snd board].
  apply pin_level_app. repeat constructor.
Qed.

Lemma level_sendByte (b : Z) : preserves level (sendByte b).
Proof. intros s. now rewrite sendByte_exec. Qed.

Lemma level_writeRegister16 (r m l : Z) :
  preserves level (writeRegister16 r m l).
Proof. intros s. now rewrite writeRegister16_exec. Qed.

Hint Resolve level_get level_modify level_on_bus level_bus_read level_ret
  level_delay level_sendByte level_writeRegister16 : pres.

Lemma level_run_op (o : Op) : preserves level (run_op o).
Proof.
  destruct o; cbn [run_op].
  - unfold init. pres.
  - unfold readSensor, get_uint8, set_uint8. pres.
  - unfold readRegister16, set_uint8. pres.
  - apply level_writeRegister16.
  - apply level_sendByte.
  - unfold set_RCOUNT, get_uint8. pres.
  - unfold set_SETTLECOUNT, get_uint8. pres.
  - unfold set_REF_DIVIDER. pres.
  - unfold set_DRIVE_CURRENT. pres.
  - unfold set_ACTIVE_CHANNEL. pres.
  - apply level_modify.
Qed.

Lemma level_run_ops (os : list Op) : preserves level (run_ops os).
Proof.
  induction os as [| o os IH]; cbn [run_ops].
  - apply level_ret.
  - apply preserves_bind; [apply level_run_op | intros _; exact IH].
Qed.

End Pins.

Lemma ctor_board {T} `{Wire T} (raw : FDC2214) (p1 p2 p3 : Z) (s : Sys T) :
  board (exec (FDC2214_ctor raw p1 p2 p3) s) =
  board s ++
  [EvPinMode (u8 p1) OUTPUT; EvDigitalWrite (u8 p1) HIGH;
   EvPinMode (u8 p2) INPUT;
   EvPinMode (u8 p3) OUTPUT; EvDigitalWrite (u8 p3) HIGH;
   EvDelay 1; EvDigitalWrite (u8 p3) LOW] /\
  bus (exec (FDC2214_ctor raw p1 p2 p3) s) = bus s.
Proof.
  destruct s as [d t brd]. unfold FDC2214_ctor, exec, bind.
  cbn [pinMode digitalWrite delay on_board modify snd obj bus board].
  rewrite <- !app_assoc. split; reflexivity.
Qed.



(** ** The shape of the bus traffic *)

Lemma bus_protocol_app (a b : list BusEvent) :
  bus_protocol a -> bus_protocol b -> bus_protocol (a ++ b).
Proof.
  intros Ha Hb. induction Ha as [| blk rest Hblk Hrest IH].
  - exact Hb.
  - rewrite <- app_assoc. now apply protocol_block.
Qed.

Lemma bus_protocol_read_events (r b1 b2 : Z) :
  0 <= r < 256 -> bus_protocol (read_events r b1 b2).
Proof.
  intros Hr.
  apply (protocol_block
           [EvBeginTransmission ADDRESS; EvWrite [r]; EvEndTransmission]
           [EvRequestFrom ADDRESS 2; EvRead b1; EvRead b2]).
  - now apply block_select.
  - apply (protocol_block [EvRequestFrom ADDRESS 2; EvRead b1; EvRead b2] []).
    + apply block_read.
    + apply protocol_nil.
Qed.

Lemma bus_protocol_write_events (r m l : Z) (rest : list BusEvent) :
  0 <= r < 256 -> 0 <= m < 256 -> 0 <= l < 256 ->
  bus_protocol rest -> bus_protocol (write_events r m l ++ rest).
Proof. intros. apply protocol_block; [now apply block_write | assumption]. Qed.

(** The transactions of well-shaped traffic all address the sensor and
    carry one byte or three. *)
Lemma bus_protocol_transactions (evs : list BusEvent) :
  bus_protocol evs ->
  Forall (fun t : Z * list Z =>
            fst t = ADDRESS /\
            (length (snd t) = 1 \/ length (snd t) = 3)%nat /\
            Forall (fun b => 0 <= b < 256) (snd t))
         (transactions None evs).
Proof.
  induction 1 as [| blk rest Hblk Hrest IH]; [constructor |].
  destruct Hblk; cbn [app transactions write_events]; try exact IH.
  - constructor; [| exact IH]. cbn. repeat split; auto.
  - constructor; [| exact IH]. cbn. repeat split; auto.
Qed.

Ltac byte :=
  first [ assumption
        | apply u8_range
        | cbv; split; [discriminate | reflexivity] ].

Section Protocol.

Context {T : Type} `{Wire T}.

Lemma sendByte_tape (b : Z) (s : Sys (Recorder T)) :
  tape (bus (exec (sendByte b) s)) =
  tape (bus s) ++
  [EvBeginTransmission ADDRESS; EvWrite [u8 b]; EvEndTransmission].
Proof.
  rewrite sendByte_exec. cbn [bus obj board]. run.
  now rewrite <- !app_assoc.
Qed.

Lemma readRegister16_run (r : Z) (s : Sys (Recorder T)) :
  exists b1 b2 : Z,
    eval (readRegister16 r) s = u8 b2 + 2 ^ 8 * u8 b1 /\
    tape (bus (exec (readRegister16 r) s)) =
      tape (bus s) ++ read_events (u8 (u8 r)) b1 b2.
Proof.
  destruct s as [[tb ce ib sd ac cb rb sv] [t tp] brd]. run.
  step_read b1 t1. step_read b2 t2.
  exists b1, b2. split; [reflexivity |]. now rewrite <- !app_assoc.
Qed.

Lemma config_byte_range (base c : Z) :
  0 <= base < 64 -> 0 <= base + (c * 0x40) mod 256 < 256.
Proof.
  intros Hb. pose proof (config_bit_cases c) as C. cbv zeta in C. lia.
Qed.

Lemma run_op_protocol (o : Op) (s : Sys (Recorder T)) :
  exists evs : list BusEvent,
    tape (bus (exec (run_op o) s)) = tape (bus s) ++ evs /\
    bus_protocol evs.
Proof.
  destruct o; cbn [run_op].
  - eexists. split; [apply init_tape |].
    apply (protocol_block [EvBegin]); [apply block_begin |].
    apply (protocol_block [EvSetClock 400000]); [apply block_setClock |].
    repeat (apply bus_protocol_write_events; [byte | byte | byte |]).
    apply protocol_nil.
  - destruct (readSensor_run s) as (b3 & b2 & b1 & b0 & _ & E).
    eexists. split; [rewrite exec_bind; exact E |].
    apply bus_protocol_app; apply bus_protocol_read_events; byte.
  - destruct (readRegister16_run regID s) as (b1 & b2 & _ & E).
    eexists. split; [rewrite exec_bind; exact E |].
    apply bus_protocol_read_events; byte.
  - eexists. split; [apply writeRegister16_tape |].
    apply bus_protocol_write_events; try byte. apply protocol_nil.
  - eexists. split; [apply sendByte_tape |].
    apply (protocol_block
             [EvBeginTransmission ADDRESS; EvWrite [u8 aByte];
              EvEndTransmission] []);
      [apply block_select; byte | apply protocol_nil].
  - eexists. split; [apply set_RCOUNT_tape |].
    repeat (apply bus_protocol_write_events; [byte | byte | byte |]).
    apply protocol_nil.
  - eexists. split; [apply set_SETTLECOUNT_tape |].
    repeat (apply bus_protocol_write_events; [byte | byte | byte |]).
    apply protocol_nil.
  - eexists. split; [apply set_REF_DIVIDER_tape |].
    repeat (apply bus_protocol_write_events; [byte | byte | byte |]).
    apply protocol_nil.
  - eexists. split; [apply set_DRIVE_CURRENT_tape |].
    repeat (apply bus_protocol_write_events; [byte | byte | byte |]).
    apply protocol_nil.
  - eexists. split; [apply set_ACTIVE_CHANNEL_tape |].
    apply bus_protocol_write_events; try byte; [| apply protocol_nil].
    apply config_byte_range. cbv. split; [discriminate | reflexivity].
  - exists []. split; [now rewrite app_nil_r | apply protocol_nil].
Qed.

End Protocol.

(** X2.  Whatever sequence of public operations the application runs,
    from any state and over any transport, the bus traffic the driver
    adds is a sequence of: bus join, clock setting, one-byte register
    selects to the sensor, three-byte register writes to the sensor, and
    two-byte reads from the sensor.  So every transmission is closed,
    addresses the sensor, and carries one or three bytes, each in byte
    range. *)
Theorem driver_bus_protocol {T} `{Wire T} (os : list Op)
        (s : Sys (Recorder T)) :
  exists evs : list BusEvent,
    tape (bus (exec (run_ops os) s)) = tape (bus s) ++ evs /\
    bus_protocol evs /\
    Forall (fun t : Z * list Z =>
              fst t = ADDRESS /\
              (length (snd t) = 1 \/ length (snd t) = 3)%nat /\
              Forall (fun b => 0 <= b < 256) (snd t))
           (transactions None evs).
Proof.
  assert (P : exists evs, tape (bus (exec (run_ops os) s)) = tape (bus s) ++ evs
                          /\ bus_protocol evs).
  { revert s. induction os as [| o os IH]; intros s.
    - exists []. split; [now rewrite app_nil_r | apply protocol_nil].
    - cbn [run_ops]. rewrite exec_bind.
      destruct (run_op_protocol o s) as (e1 & E1 & P1).
      destruct (IH (exec (run_op o) s)) as (e2 & E2 & P2).
      exists (e1 ++ e2). split.
      + rewrite E2, E1. now rewrite app_assoc.
      + now apply bus_protocol_app. }
  destruct P as (evs & E & P). exists evs.
  split; [exact E |]. split; [exact P |].
  now apply bus_protocol_transactions.
Qed.

(** ** Reading *)

(** X3.  The read functions issue no register write: the bus traffic of
    [readSensor], [readRegister16] and [sendByte] contains no three-byte
    transaction, from any state and over any transport. *)
Theorem reads_issue_no_register_write {T} `{Wire T} (r b : Z)
        (s : Sys (Recorder T)) :
  writes_of readSensor s = [] /\
  writes_of (readRegister16 r) s = [] /\
  writes_of (sendByte b) s = [].
Proof.
  unfold writes_of. split; [| split].
  - destruct (readSensor_run s) as (b3 & b2 & b1 & b0 & _ & E).
    now rewrite (tape_since_app _ _ _ E).
  - destruct (readRegister16_run r s) as (b1 & b2 & _ & E).
    now rewrite (tape_since_app _ _ _ E).
  - now rewrite (tape_since_app _ _ _ (sendByte_tape b s)).
Qed.

Section ReadValues.

Context {T : Type} `{Wire T}.

Lemma readRegister16_eval (r : Z) (s : Sys T) :
  exists b1 b2 : Z, eval (readRegister16 r) s = u8 b2 + 2 ^ 8 * u8 b1.
Proof.
  destruct s as [[tb ce ib sd ac cb rb sv] t brd]. run.
  step_read b1 t1. step_read b2 t2. now exists b1, b2.
Qed.

Lemma readSensor_eval (s : Sys T) :
  exists b3 b2 b1 b0 : Z,
    eval readSensor s =
    u8 b0 + 2 ^ 8 * u8 b1 + 2 ^ 16 * u8 b2 + 2 ^ 24 * Z.land (u8 b3) 0xCF.
Proof.
  destruct s as [[tb ce ib sd ac cb rb sv] t brd]. run.
  step_read b3 t3. step_read b2 t2. step_read b1 t1. step_read b0 t0.
  exists b3, b2, b1, b0. now rewrite bitClear_5_4.
Qed.

End ReadValues.

Lemma Zland_le_r (a b : Z) : 0 <= a -> 0 <= b -> Z.land a b <= b.
Proof.
  intros Ha Hb.
  rewrite <- (Z2N.id a Ha), <- (Z2N.id b Hb), <- N2Z.inj_land.
  apply N2Z.inj_le, N.land_le_r.
Qed.

(** X4.  Over any transport and from any state, [readRegister16] returns
    a value in [0, 2^16) and [readSensor] a value in [0, 0xCFFFFFFF]:
    whatever [read] gives, also -1, is cut to a byte before it is
    used. *)
Theorem read_results_in_range {T} `{Wire T} (r : Z) (s : Sys T) :
  0 <= eval (readRegister16 r) s < 2 ^ 16 /\
  0 <= eval readSensor s <= 0xCFFFFFFF.
Proof.
  split.
  - destruct (readRegister16_eval r s) as (b1 & b2 & ->).
    pose proof (u8_range b1). pose proof (u8_range b2).
    change (2 ^ 8) with 256. change (2 ^ 16) with 65536. lia.
  - destruct (readSensor_eval s) as (b3 & b2 & b1 & b0 & ->).
    pose proof (u8_range b0). pose proof (u8_range b1).
    pose proof (u8_range b2). pose proof (masked_byte_range b3).
    assert (Z.land (u8 b3) 0xCF <= 0xCF)
      by (apply Zland_le_r; [apply u8_range | lia]).
    change (2 ^ 8) with 256. change (2 ^ 16) with 65536.
    change (2 ^ 24) with 16777216. lia.
Qed.

(** X5.  On a transport that has nothing to deliver, [read] returns -1
    and the driver takes it as the byte [0xFF]: [readRegister16] returns
    [0xFFFF] and [readSensor] returns [0xCFFFFFFF]; with a single byte
    [b] to deliver, [readRegister16] returns [b * 256 + 0xFF].  No error
    is reported. *)
Theorem reads_on_exhausted_transport (r b : Z) (d : FDC2214)
        (rx : list Z) (brd : list BoardEvent) :
  eval (readRegister16 r) (mkSys d (mkScripted [] rx) brd) = 0xFFFF /\
  eval readSensor (mkSys d (mkScripted [] rx) brd) = 0xCFFFFFFF /\
  eval (readRegister16 r) (mkSys d (mkScripted [b] rx) brd) =
    u8 b * 256 + 0xFF.
Proof.
  destruct d as [tb ce ib sd ac cb rb sv].
  split; [| split].
  - reflexivity.
  - reflexivity.
  - run. change (u8 (-1)) with 255. change (2 ^ 8) with 256. lia.
Qed.

(** Masking bits 5 and 4 of the top byte is masking bits 29 and 28 of
    the word. *)
Lemma testbit_split (lo h n : Z) :
  0 <= lo < 2 ^ 24 -> 0 <= n ->
  Z.testbit (lo + 2 ^ 24 * h) n =
  if Z.ltb n 24 then Z.testbit lo n else Z.testbit h (n - 24).
Proof.
  intros Hlo Hn. destruct (Z.ltb_spec n 24) as [L | G].
  - rewrite <- (Z.mod_pow2_bits_low (lo + 2 ^ 24 * h) 24 n) by lia.
    rewrite (Z.mul_comm (2 ^ 24) h), Z.mod_add by lia.
    now rewrite Z.mod_small by lia.
  - replace (Z.testbit (lo + 2 ^ 24 * h) n)
      with (Z.testbit (lo + 2 ^ 24 * h) (n - 24 + 24)) by (f_equal; lia).
    rewrite <- (Z.div_pow2_bits (lo + 2 ^ 24 * h) 24 (n - 24)) by lia.
    rewrite (Z.mul_comm (2 ^ 24) h), Z.div_add by lia.
    now rewrite Z.div_small by lia.
Qed.

Lemma mask_word (lo h : Z) :
  0 <= lo < 2 ^ 24 ->
  lo + 2 ^ 24 * Z.land h 0xCF = Z.land (lo + 2 ^ 24 * h) 0xCFFFFFFF.
Proof.
  intros Hlo. apply Z.bits_inj'. intros n Hn.
  rewrite Z.land_spec.
  change 0xCFFFFFFF with (Z.ones 24 + 2 ^ 24 * 0xCF).
  rewrite !testbit_split by (try assumption; cbv; split; congruence).
  destruct (Z.ltb_spec n 24) as [L | G].
  - rewrite Z.ones_spec_low by lia. now rewrite andb_true_r.
  - now rewrite Z.land_spec.
Qed.

(** X6.  On a transport that delivers the bytes [b3], [b2], [b1], [b0],
    [readSensor] returns the big-endian word of those bytes with bits 29
    and 28 cleared and every other bit as delivered, and takes exactly
    those four bytes from the transport. *)
Theorem readSensor_masks_only_two_bits (b3 b2 b1 b0 : Z) (rest : list Z)
        (d : FDC2214) (rx : list Z) (brd : list BoardEvent) :
  0 <= b3 < 256 -> 0 <= b2 < 256 -> 0 <= b1 < 256 -> 0 <= b0 < 256 ->
  eval readSensor
       (mkSys d (mkScripted (b3 :: b2 :: b1 :: b0 :: rest) rx) brd) =
    Z.land (2 ^ 24 * b3 + 2 ^ 16 * b2 + 2 ^ 8 * b1 + b0) 0xCFFFFFFF /\
  incoming
    (bus (exec readSensor
            (mkSys d (mkScripted (b3 :: b2 :: b1 :: b0 :: rest) rx) brd)))
    = rest.
Proof.
  intros H3 H2 H1 H0. destruct d as [tb ce ib sd ac cb rb sv].
  split; [| reflexivity].
  run. rewrite bitClear_5_4.
  rewrite (u8_small b0 H0), (u8_small b1 H1), (u8_small b2 H2),
    (u8_small b3 H3).
  replace (2 ^ 24 * b3 + 2 ^ 16 * b2 + 2 ^ 8 * b1 + b0)
    with ((b0 + 2 ^ 8 * b1 + 2 ^ 16 * b2) + 2 ^ 24 * b3) by ring.
  rewrite <- mask_word; [reflexivity |].
  change (2 ^ 8) with 256. change (2 ^ 16) with 65536.
  change (2 ^ 24) with 16777216. lia.
Qed.

Lemma readSensor_masks_only_two_bits_witness :
  0 <= 0xFF < 256 /\ 0 <= 0x34 < 256 /\ 0 <= 0x56 < 256 /\ 0 <= 0x78 < 256 /\
  eval readSensor (boot (script [0xFF; 0x34; 0x56; 0x78; 0x9A])) =
    Z.land (2 ^ 24 * 0xFF + 2 ^ 16 * 0x34 + 2 ^ 8 * 0x56 + 0x78) 0xCFFFFFFF /\
  incoming
    (bus (exec readSensor (boot (script [0xFF; 0x34; 0x56; 0x78; 0x9A]))))
    = [0x9A].
Proof.
  split; [lia |]. split; [lia |]. split; [lia |]. split; [lia |].
  apply (readSensor_masks_only_two_bits 0xFF 0x34 0x56 0x78 [0x9A]
           raw0 [] []); lia.
Defined.

(** ** Channel selection composed with the other operations *)

Lemma u8_mul_l (c k : Z) : (u8 c * k) mod 256 = (c * k) mod 256.
Proof. unfold u8. change (2 ^ 8) with 256. apply Z.mul_mod_idemp_l. lia. Qed.

Lemma sensor_addresses (c : Z) :
  u8 (u8 (u8 c * 2)) = (2 * c) mod 256 /\
  u8 (u8 (u8 c * 2) + 1) = (2 * c) mod 256 + 1.
Proof.
  assert (E : u8 (u8 c * 2) = (2 * c) mod 256).
  { unfold u8 at 1. change (2 ^ 8) with 256.
    now rewrite u8_mul_l, (Z.mul_comm c 2). }
  split.
  - now rewrite u8_idem.
  - rewrite E. apply u8_small.
    change 256 with (2 * 128). rewrite Z.mul_mod_distr_l by lia.
    pose proof (Z.mod_pos_bound c 128 ltac:(lia)). lia.
Qed.

(** X7.  After [set_ACTIVE_CHANNEL c], for any [c], [readSensor] selects
    register [(2*c) mod 256] for the high word and the register after it
    for the low word: the register address is computed in 8 bits and is
    not checked against the two channels. *)
Theorem readSensor_after_channel_select {T} `{Wire T} (c : Z)
        (s : Sys (Recorder T)) :
  exists b3 b2 b1 b0 : Z,
    tape (bus (exec readSensor (exec (set_ACTIVE_CHANNEL c) s))) =
      tape (bus (exec (set_ACTIVE_CHANNEL c) s)) ++
      read_events ((2 * c) mod 256) b3 b2 ++
      read_events ((2 * c) mod 256 + 1) b1 b0.
Proof.
  destruct (readSensor_run (exec (set_ACTIVE_CHANNEL c) s))
    as (b3 & b2 & b1 & b0 & _ & E).
  destruct (set_ACTIVE_CHANNEL_fields c s) as [Ea _].
  destruct (sensor_addresses c) as [A0 A1].
  rewrite Ea, A0, A1 in E. now exists b3, b2, b1, b0.
Qed.

(** X8.  A setter called after [set_ACTIVE_CHANNEL c], for any [c],
    brackets its data writes with the CONFIG high bytes
    [0x3E + (c*0x40) mod 256] (sleep) and [0x1E + (c*0x40) mod 256]
    (wake): the setters pick up the offset of the channel selected
    last. *)
Theorem setter_after_channel_select {T} `{Wire T} (c : Z) (k : Setter)
        (value : Z) (s : Sys (Recorder T)) :
  exists d0 d1 : RegWrite,
    writes_of (run_setter k value) (exec (set_ACTIVE_CHANNEL c) s) =
      [mkRegWrite REG_CONFIG (0x3E + (c * 0x40) mod 256) 0x01;
       d0; d1;
       mkRegWrite REG_CONFIG (0x1E + (c * 0x40) mod 256) 0x01] /\
    rw_reg d0 = setter_CH0 k /\
    rw_reg d1 = setter_CH1 k.
Proof.
  destruct (set_ACTIVE_CHANNEL_fields c s) as [Ea Ec].
  assert (Hinv : channel_inv (obj (exec (set_ACTIVE_CHANNEL c) s)))
    by (unfold channel_inv; now rewrite Ea, Ec).
  destruct (sleep_wake_bytes _ Hinv) as (Es & Ew & _ & _).
  destruct (setter_tape k value (exec (set_ACTIVE_CHANNEL c) s))
    as (m0 & l0 & m1 & l1 & E).
  rewrite Es, Ew, Ec, u8_mul_l in E.
  exists (mkRegWrite (setter_CH0 k) m0 l0), (mkRegWrite (setter_CH1 k) m1 l1).
  unfold writes_of. rewrite (tape_since_app _ _ _ E).
  repeat split.
Qed.

(** Selecting a channel twice leaves the driver object as the second
    selection alone would. *)
Lemma set_ACTIVE_CHANNEL_last_wins {T} `{Wire T} (c1 c2 : Z)
        (s : Sys T) :
  obj (exec (set_ACTIVE_CHANNEL c2) (exec (set_ACTIVE_CHANNEL c1) s)) =
  obj (exec (set_ACTIVE_CHANNEL c2) s).
Proof. now rewrite !set_ACTIVE_CHANNEL_exec. Qed.

(** ** Drive current *)

Lemma drive_byte (v : Z) : u8 (Z.shiftl (u8 v) 3) = 8 * (v mod 32).
Proof.
  unfold u8. rewrite Z.shiftl_mul_pow2 by lia.
  change (2 ^ 8) with 256. change (2 ^ 3) with 8.
  Z.to_euclidean_division_equations. lia.
Qed.

(** X9.  [set_DRIVE_CURRENT] uses only the low five bits of its
    argument: calling it with [v] and with [v mod 32] leads to the same
    state and the same bus traffic, and both channels' drive-current
    registers receive the high byte [8 * (v mod 32)] and the low byte
    0. *)
Theorem set_DRIVE_CURRENT_low_five_bits {T} `{Wire T} (v : Z)
        (s : Sys (Recorder T)) :
  exec (set_DRIVE_CURRENT v) s = exec (set_DRIVE_CURRENT (v mod 32)) s /\
  writes_of (set_DRIVE_CURRENT v) s =
    [mkRegWrite REG_CONFIG (u8 (0x3E + chConfigBit (obj s))) 0x01;
     mkRegWrite REG_DRIVECURRENT_CH0 (8 * (v mod 32)) 0x00;
     mkRegWrite REG_DRIVECURRENT_CH1 (8 * (v mod 32)) 0x00;
     mkRegWrite REG_CONFIG (u8 (0x1E + chConfigBit (obj s))) 0x01].
Proof.
  split.
  - unfold set_DRIVE_CURRENT. steps.
    rewrite !drive_byte, Z.mod_mod by lia. reflexivity.
  - unfold writes_of.
    rewrite (tape_since_app _ _ _ (set_DRIVE_CURRENT_tape v s)).
    rewrite drive_byte. reflexivity.
Qed.

(** ** The driver over the register file *)

Lemma regfile_fetch (r : Z) (t : RegFile) :
  Wire_requestFrom ADDRESS 2
    (Wire_endTransmission
       (Wire_write [r] (Wire_beginTransmission ADDRESS t))) =
  mkRegFile (rf_regs t) r None
            [fst (default (0, 0) (rf_regs t !! r));
             snd (default (0, 0) (rf_regs t !! r))].
Proof.
  rewrite regfile_select. cbn [Wire_requestFrom RegFile_Wire].
  unfold rf_fetch. cbn [rf_regs rf_pointer rf_tx Z.eqb ADDRESS Pos.eqb].
  now destruct (default (0, 0) (rf_regs t !! r)).
Qed.

Lemma rf_word_pair (t : RegFile) (r : Z) :
  rf_word t r =
  2 ^ 8 * u8 (fst (default (0, 0) (rf_regs t !! r))) +
  u8 (snd (default (0, 0) (rf_regs t !! r))).
Proof. unfold rf_word. now destruct (default (0, 0) (rf_regs t !! r)). Qed.

(** Over the register file [readRegister16] returns the word held in
    the register, zero if it was never written. *)
Lemma readRegister16_regfile (r : Z) (s : Sys RegFile) :
  eval (readRegister16 r) s = rf_word (bus s) (u8 r).
Proof.
  rewrite rf_word_pair.
  rewrite (readRegister16_bytes r
             (fst (default (0, 0) (rf_regs (bus s) !! u8 r)))
             (snd (default (0, 0) (rf_regs (bus s) !! u8 r)))
             (mkRegFile (rf_regs (bus s)) (u8 r) None
                [snd (default (0, 0) (rf_regs (bus s) !! u8 r))])
             (mkRegFile (rf_regs (bus s)) (u8 r) None [])).
  - lia.
  - now rewrite regfile_fetch.
  - reflexivity.
Qed.

Lemma rf_word_insert_eq (regs : gmap Z (Z * Z)) (p : Z)
      (tx : option (Z * list Z)) (rx : list Z) (r m l : Z) :
  rf_word (mkRegFile (<[r := (m, l)]> regs) p tx rx) r = 2 ^ 8 * u8 m + u8 l.
Proof. unfold rf_word. cbn [rf_regs]. now rewrite lookup_insert_eq. Qed.

Lemma rf_word_insert_ne (regs : gmap Z (Z * Z)) (p : Z)
      (tx : option (Z * list Z)) (rx : list Z) (r r' m l : Z) :
  r <> r' ->
  rf_word (mkRegFile (<[r := (m, l)]> regs) p tx rx) r' =
  rf_word (mkRegFile regs p tx rx) r'.
Proof.
  intros Hne. unfold rf_word. cbn [rf_regs].
  now rewrite lookup_insert_ne.
Qed.

Ltac run_regfile :=
  lazy -[u8 u16 u32 bitClear Z.add Z.mul Z.modulo Z.div Z.pow
         Z.shiftl Z.shiftr Z.land Z.lnot Z.lor insert lookup].

Ltac regne := let E := fresh in intros E; vm_compute in E; discriminate E.

Ltac words :=
  repeat first [ rewrite rf_word_insert_eq
               | rewrite rf_word_insert_ne by regne ].

Ltac regfile :=
  rewrite ?regfile_write; cbn [rf_regs rf_rx rf_pointer rf_tx];
  rewrite ?u8_idem, ?u16_idem; words; rewrite ?u8_idem.

Lemma split_word (x : Z) :
  2 ^ 8 * u8 (Z.shiftr (u16 x) 8) + u8 (u16 x) = x mod 65536.
Proof.
  unfold u8, u16. rewrite Z.shiftr_div_pow2 by lia.
  change (2 ^ 8) with 256. change (2 ^ 16) with 65536.
  Z.to_euclidean_division_equations. lia.
Qed.

Lemma split_word_aliased (x k : Z) :
  0 <= k < 256 ->
  2 ^ 8 * u8 (Z.shiftr (u16 x) 8) + u8 k =
  256 * ((x mod 65536) / 256) + k.
Proof.
  intros Hk. rewrite (u8_small k Hk).
  unfold u8, u16. rewrite Z.shiftr_div_pow2 by lia.
  change (2 ^ 8) with 256. change (2 ^ 16) with 65536.
  Z.to_euclidean_division_equations. lia.
Qed.

(** X10.  Over the register file, after [set_RCOUNT v] the channel-0
    reference-count register reads back [v mod 65536], but the
    channel-1 register reads back the high byte of [v] over the low
    byte 8, the id of the channel-0 register; [set_SETTLECOUNT] does the
    same with the settle-count registers and the low byte 16. *)
Theorem count_setters_read_back (v : Z) (s : Sys RegFile) :
  eval (readRegister16 REG_RCOUNT_CH0) (exec (set_RCOUNT v) s) =
    v mod 65536 /\
  eval (readRegister16 REG_RCOUNT_CH1) (exec (set_RCOUNT v) s) =
    256 * ((v mod 65536) / 256) + REG_RCOUNT_CH0 /\
  eval (readRegister16 REG_SETTLECOUNT_CH0) (exec (set_SETTLECOUNT v) s) =
    v mod 65536 /\
  eval (readRegister16 REG_SETTLECOUNT_CH1) (exec (set_SETTLECOUNT v) s) =
    256 * ((v mod 65536) / 256) + REG_SETTLECOUNT_CH0.
Proof.
  rewrite !readRegister16_regfile.
  unfold set_RCOUNT, set_SETTLECOUNT. steps. regfile.
  repeat split;
    first [ apply split_word
          | apply split_word_aliased; cbv; split; congruence ].
Qed.

(** X11.  Over the register file, after [set_REF_DIVIDER v] both
    clock-divider registers read back [0x2000 + v mod 256]: the high
    byte is [0x20] whatever it was before, where [init] writes
    [0x10]. *)
Theorem set_REF_DIVIDER_reads_back (v : Z) (s : Sys RegFile) :
  eval (readRegister16 REG_CLKDIVIDERS_CH0) (exec (set_REF_DIVIDER v) s) =
    0x2000 + v mod 256 /\
  eval (readRegister16 REG_CLKDIVIDERS_CH1) (exec (set_REF_DIVIDER v) s) =
    0x2000 + v mod 256.
Proof.
  rewrite !readRegister16_regfile.
  unfold set_REF_DIVIDER. steps. regfile.
  split; reflexivity.
Qed.

Lemma init_regs (s : Sys RegFile) :
  rf_regs (bus (exec init s)) =
  <[REG_CONFIG := (B00011110, B00000001)]>
  (<[REG_DRIVECURRENT_CH1 := (B11111000, B00000000)]>
  (<[REG_DRIVECURRENT_CH0 := (B11111000, B00000000)]>
  (<[REG_MUXCONFIG := (B00000010, B00001101)]>
  (<[REG_ERRCONFIG := (B00000000, B00000001)]>
  (<[REG_CLKDIVIDERS_CH1 := (B00010000, B00000001)]>
  (<[REG_CLKDIVIDERS_CH0 := (B00010000, B00000001)]>
  (<[REG_SETTLECOUNT_CH1 := (B00000000, B00001010)]>
  (<[REG_SETTLECOUNT_CH0 := (B00000000, B00001010)]>
  (<[REG_RCOUNT_CH1 := (B00000001, B00000000)]>
  (<[REG_RCOUNT_CH0 := (B00000001, B00000000)]>
  (<[REG_RESET := (B10000000, B00000000)]> (rf_regs (bus s))))))))))))).
Proof.
  destruct s as [[tb ce ib sd ac cb rb sv] [regs p tx rx] brd].
  run_regfile. reflexivity.
Qed.

(** X12.  Over the register file and from any state, after [init]
    every register [init] programs reads back its default (reference
    count 256, settle count 10, clock dividers [0x1001], error config 1,
    mux config [0x020D], drive current [0xF800], config [0x1E01], reset
    [0x8000]), and every other register holds what it held before. *)
Theorem init_establishes_defaults (s : Sys RegFile) (r : Z) :
  ~ In r (map fst init_defaults) ->
  Forall (fun rw : Z * Z =>
            eval (readRegister16 (fst rw)) (exec init s) = snd rw)
         init_defaults /\
  rf_regs (bus (exec init s)) !! r = rf_regs (bus s) !! r.
Proof.
  intros Hr. split.
  - unfold init_defaults.
    repeat constructor; cbn [fst snd];
      rewrite readRegister16_regfile, rf_word_pair, init_regs;
      repeat (rewrite lookup_insert_ne by regne);
      rewrite lookup_insert_eq; reflexivity.
  - rewrite init_regs.
    repeat (rewrite lookup_insert_ne;
            [| intros <-; apply Hr; cbn; tauto]).
    reflexivity.
Qed.

Lemma init_establishes_defaults_witness :
  ~ In REG_MFGID (map fst init_defaults) /\
  Forall (fun rw : Z * Z =>
            eval (readRegister16 (fst rw)) (exec init (boot regfile0))
            = snd rw)
         init_defaults /\
  rf_regs (bus (exec init (boot regfile0))) !! REG_MFGID =
    rf_regs (bus (boot regfile0)) !! REG_MFGID.
Proof.
  assert (Hr : ~ In REG_MFGID (map fst init_defaults)).
  { cbn. intros E. repeat destruct E as [E | E]; try discriminate E.
    exact E. }
  split; [exact Hr |].
  apply (init_establishes_defaults (boot regfile0) REG_MFGID Hr).
Defined.

Lemma readSensor_bytes {T} `{Wire T} (b3 b2 b1 b0 : Z) (t3 t2 t1 t0 : T)
      (s : Sys T) :
  Wire_read
    (Wire_requestFrom ADDRESS 2
       (Wire_endTransmission
          (Wire_write [u8 (u8 (activeChannel (obj s) * 2))]
             (Wire_beginTransmission ADDRESS (bus s))))) = (b3, t3) ->
  Wire_read t3 = (b2, t2) ->
  Wire_read
    (Wire_requestFrom ADDRESS 2
       (Wire_endTransmission
          (Wire_write [u8 (u8 (activeChannel (obj s) * 2) + 1)]
             (Wire_beginTransmission ADDRESS t2)))) = (b1, t1) ->
  Wire_read t1 = (b0, t0) ->
  eval readSensor s =
    u8 b0 + 2 ^ 8 * u8 b1 + 2 ^ 16 * u8 b2 + 2 ^ 24 * Z.land (u8 b3) 0xCF /\
  bus (exec readSensor s) = t0.
Proof.
  intros R3 R2 R1 R0. destruct s as [d t brd].
  unfold readSensor, sendByte, eval, exec, bind, bus_read, on_bus,
    get_uint8, set_uint8, modify, get.
  cbn [obj bus board fst snd] in *.
  rewrite R3. cbn [obj bus board fst snd activeChannel with_typeBuffer].
  rewrite R2. cbn [obj bus board fst snd activeChannel with_typeBuffer].
  rewrite R1. cbn [obj bus board fst snd]. rewrite R0.
  cbn [obj bus board fst snd typeBuffer with_typeBuffer Buf.set_uint8
       Buf.get_uint8 Buf.get_uint32_0 tb0 tb1 tb2 tb3].
  now rewrite bitClear_5_4.
Qed.

(** X13.  Over the register file, with the active channel [c] below
    128, [readSensor] returns the word of register [2*c] over the word
    of register [2*c+1], with bits 29 and 28 cleared, and leaves every
    register as it was. *)
Theorem readSensor_returns_registers (c : Z) (s : Sys RegFile) :
  0 <= c < 128 ->
  activeChannel (obj s) = c ->
  eval readSensor s =
    Z.land (2 ^ 16 * rf_word (bus s) (2 * c) + rf_word (bus s) (2 * c + 1))
           0xCFFFFFFF /\
  rf_regs (bus (exec readSensor s)) = rf_regs (bus s).
Proof.
  intros Hc Ha.
  assert (A0 : u8 (u8 (activeChannel (obj s) * 2)) = 2 * c)
    by (rewrite Ha, u8_idem, (u8_small (c * 2)) by lia; lia).
  assert (A1 : u8 (u8 (activeChannel (obj s) * 2) + 1) = 2 * c + 1)
    by (rewrite Ha, (u8_small (c * 2)), u8_small by lia; lia).
  set (hi := default (0, 0) (rf_regs (bus s) !! (2 * c))).
  set (lo := default (0, 0) (rf_regs (bus s) !! (2 * c + 1))).
  destruct (readSensor_bytes (fst hi) (snd hi) (fst lo) (snd lo)
              (mkRegFile (rf_regs (bus s)) (2 * c) None [snd hi])
              (mkRegFile (rf_regs (bus s)) (2 * c) None [])
              (mkRegFile (rf_regs (bus s)) (2 * c + 1) None [snd lo])
              (mkRegFile (rf_regs (bus s)) (2 * c + 1) None []) s)
    as [Ev Eb].
  - now rewrite A0, regfile_fetch.
  - reflexivity.
  - now rewrite A1, regfile_fetch.
  - reflexivity.
  - split; [| now rewrite Eb].
    rewrite Ev, !rf_word_pair. fold hi lo.
    pose proof (u8_range (fst lo)). pose proof (u8_range (snd lo)).
    pose proof (u8_range (snd hi)).
    replace (2 ^ 16 * (2 ^ 8 * u8 (fst hi) + u8 (snd hi)) +
             (2 ^ 8 * u8 (fst lo) + u8 (snd lo)))
      with ((u8 (snd lo) + 2 ^ 8 * u8 (fst lo) + 2 ^ 16 * u8 (snd hi)) +
            2 ^ 24 * u8 (fst hi)) by ring.
    apply mask_word.
    change (2 ^ 8) with 256. change (2 ^ 16) with 65536.
    change (2 ^ 24) with 16777216. lia.
Qed.

Lemma readSensor_returns_registers_witness :
  0 <= 1 < 128 /\
  activeChannel
    (obj (exec (set_ACTIVE_CHANNEL 1)
               (exec (writeRegister16 3 0x56 0x78)
                     (exec (writeRegister16 2 0xF2 0x34) (boot regfile0)))))
    = 1 /\
  eval readSensor
       (exec (set_ACTIVE_CHANNEL 1)
             (exec (writeRegister16 3 0x56 0x78)
                   (exec (writeRegister16 2 0xF2 0x34) (boot regfile0))))
    = 0xC2345678.
Proof.
  split; [lia |]. split; [reflexivity |].
  destruct (readSensor_returns_registers 1
              (exec (set_ACTIVE_CHANNEL 1)
                    (exec (writeRegister16 3 0x56 0x78)
                          (exec (writeRegister16 2 0xF2 0x34)
                                (boot regfile0)))))
    as [E _]; [lia | reflexivity |].
  rewrite E. vm_compute. reflexivity.
Defined.

(** X14.  Over the register file, from a state in which the
    channel-config bit is the one of the active channel, every setter
    leaves the CONFIG register holding the wake word
    [(0x1E + chConfigBit) * 256 + 1], whose sleep bit (bit 13) is
    clear: a setter never leaves the sensor asleep. *)
Theorem setters_leave_sensor_awake (k : Setter) (v : Z) (s : Sys RegFile) :
  channel_inv (obj s) ->
  eval (readRegister16 REG_CONFIG) (exec (run_setter k v) s) =
    (0x1E + chConfigBit (obj s)) * 256 + 1 /\
  Z.testbit (eval (readRegister16 REG_CONFIG) (exec (run_setter k v) s)) 13
    = false.
Proof.
  intros Hinv. destruct (sleep_wake_bytes _ Hinv) as (_ & Ew & _ & Bw).
  assert (E : eval (readRegister16 REG_CONFIG) (exec (run_setter k v) s) =
              (0x1E + chConfigBit (obj s)) * 256 + 1).
  { rewrite readRegister16_regfile.
    destruct k; cbn [run_setter];
      unfold set_RCOUNT, set_SETTLECOUNT, set_REF_DIVIDER, set_DRIVE_CURRENT;
      steps; regfile; rewrite Ew; change (2 ^ 8) with 256;
      change (u8 B00000001) with 1; change B00011110 with 0x1E; lia. }
  split; [exact E |]. rewrite E.
  unfold channel_inv in Hinv.
  pose proof (config_bit_cases (activeChannel (obj s))) as C.
  cbv zeta in C. rewrite <- Hinv in C.
  destruct C as [C | [C | [C | C]]]; rewrite C; reflexivity.
Qed.

Lemma setters_leave_sensor_awake_witness :
  channel_inv (obj (exec (set_ACTIVE_CHANNEL 1) (boot regfile0))) /\
  eval (readRegister16 REG_CONFIG)
       (exec (run_setter RCOUNT 0x0400)
             (exec (set_ACTIVE_CHANNEL 1) (boot regfile0))) = 0x5E01.
Proof.
  split; [reflexivity |].
  destruct (setters_leave_sensor_awake RCOUNT 0x0400
              (exec (set_ACTIVE_CHANNEL 1) (boot regfile0))) as [E _].
  - reflexivity.
  - rewrite E. reflexivity.
Defined.

(** X15.  [init] writes the CONFIG register without the channel offset
    and does not reset the channel selection: after
    [set_ACTIVE_CHANNEL c] and then [init], the CONFIG register holds
    [0x1E01] while the driver still holds channel [c mod 256] and its
    channel-config bit. *)
Theorem init_keeps_selection_but_not_offset (c : Z) (s : Sys RegFile) :
  eval (readRegister16 REG_CONFIG)
       (exec init (exec (set_ACTIVE_CHANNEL c) s)) = 0x1E01 /\
  activeChannel (obj (exec init (exec (set_ACTIVE_CHANNEL c) s))) =
    c mod 256 /\
  chConfigBit (obj (exec init (exec (set_ACTIVE_CHANNEL c) s))) =
    (c * 0x40) mod 256.
Proof.
  destruct (keeps_init (exec (set_ACTIVE_CHANNEL c) s)) as [Ka Kc].
  destruct (set_ACTIVE_CHANNEL_fields c s) as [Ea Ec].
  split; [| split].
  - rewrite readRegister16_regfile, rf_word_pair, init_regs.
    rewrite lookup_insert_eq. reflexivity.
  - now rewrite Ka, Ea.
  - now rewrite Kc, Ec, u8_mul_l.
Qed.

(** X16.  Over the register file, a register write is seen only by
    reads of the same register: writing register [r'] leaves what
    [readRegister16 r] returns unchanged when [r] and [r'] differ as
    bytes. *)
Theorem write_leaves_other_registers (r r' m l : Z) (s : Sys RegFile) :
  u8 r <> u8 r' ->
  eval (readRegister16 r) (exec (writeRegister16 r' m l) s) =
  eval (readRegister16 r) s.
Proof.
  intros Hne. rewrite !readRegister16_regfile.
  rewrite writeRegister16_exec, regfile_write. cbn [bus].
  unfold rf_word. cbn [rf_regs].
  rewrite lookup_insert_ne by (intros E; apply Hne; now rewrite E).
  reflexivity.
Qed.

Lemma write_leaves_other_registers_witness :
  u8 REG_RCOUNT_CH0 <> u8 REG_RCOUNT_CH1 /\
  eval (readRegister16 REG_RCOUNT_CH0)
       (exec (writeRegister16 REG_RCOUNT_CH1 0xAB 0xCD)
             (exec init (boot regfile0))) =
  eval (readRegister16 REG_RCOUNT_CH0) (exec init (boot regfile0)).
Proof.
  split; [discriminate |].
  apply (write_leaves_other_registers REG_RCOUNT_CH0 REG_RCOUNT_CH1
           0xAB 0xCD (exec init (boot regfile0))).
  discriminate.
Defined.
